(** * PeopleSoft ExecuteQuery client: URL builder, transport and row extractor

    A shallow embedding of [psft_client.py].  Python [str] values are
    modelled as [string], every character being one code point in the
    range U+0000..U+00FF; [int] as [Z]; [None]-able values as [option];
    a [dict] as an insertion-ordered association list with unique keys;
    raised exceptions as the [Raise] branch of [result].

    The two library entry points the module calls, [requests.get] and
    [xml.etree.ElementTree.fromstring], are parameters of the functions
    that call them. *)

From Stdlib Require Import ZArith String Ascii List Bool Lia DecimalString.
From Stdlib Require DecimalPos DecimalZ.
Import ListNotations.
Open Scope list_scope.
Open Scope string_scope.

Set Warnings "-register-all".

(* ================================================================== *)
(** ** Exceptions and the error monad *)

Inductive exn : Type :=
| KeyError (key : string)
| IndexError
| ParseError (msg : string)
| HTTPError (msg : string)
| RequestException (msg : string)
| RuntimeError (msg : string).

Inductive result (A : Type) : Type :=
| Ok (a : A)
| Raise (e : exn).

Arguments Ok {A} a.
Arguments Raise {A} e.

Definition bind {A B : Type} (m : result A) (k : A -> result B) : result B :=
  match m with
  | Ok a => k a
  | Raise e => Raise e
  end.

Notation "x <- m ;; k" := (bind m (fun x => k))
  (at level 61, m at next level, right associativity).

(** [[f(x) for x in xs]] where [f] may raise: the first exception wins. *)
Fixpoint mapM {A B : Type} (f : A -> result B) (xs : list A) : result (list B) :=
  match xs with
  | [] => Ok []
  | x :: rest =>
      y <- f x ;;
      ys <- mapM f rest ;;
      Ok (y :: ys)
  end.

(* ================================================================== *)
(** ** Python string primitives *)

Module PyStr.

Definition nl : string := String (ascii_of_nat 10) EmptyString.

(** [str(n)] for an [int]. *)
Definition str_of_int (z : Z) : string := NilZero.string_of_int (Z.to_int z).

(** [c in s] for a one-character string [c]. *)
Fixpoint contains (c : ascii) (s : string) : bool :=
  match s with
  | EmptyString => false
  | String a s' => if Ascii.eqb a c then true else contains c s'
  end.

(** [str.isspace] on one code point below U+0100: TAB..CR, FS..US,
    SPACE, NEL and NBSP. *)
Definition isspace (c : ascii) : bool :=
  let n := nat_of_ascii c in
  (Nat.leb 9 n && Nat.leb n 13) || (Nat.leb 28 n && Nat.leb n 32)
  || Nat.eqb n 133 || Nat.eqb n 160.

(** Drop the longest prefix whose characters satisfy [p]. *)
Fixpoint lstrip_by (p : ascii -> bool) (s : string) : string :=
  match s with
  | EmptyString => EmptyString
  | String c s' => if p c then lstrip_by p s' else s
  end.

(** Drop the longest suffix whose characters satisfy [p]. *)
Fixpoint rstrip_by (p : ascii -> bool) (s : string) : string :=
  match s with
  | EmptyString => EmptyString
  | String c s' =>
      match rstrip_by p s' with
      | EmptyString => if p c then EmptyString else String c EmptyString
      | r => String c r
      end
  end.

(** [s.rstrip(chars)]: [chars] is a set of characters. *)
Definition rstrip (chars : string) (s : string) : string :=
  rstrip_by (fun c => contains c chars) s.

(** [s.strip()]: whitespace removed at both ends. *)
Definition strip (s : string) : string :=
  lstrip_by isspace (rstrip_by isspace s).

(** [s.split(c, 1)] for a one-character separator: at most one cut,
    at the first occurrence. *)
Fixpoint split1 (c : ascii) (s : string) : list string :=
  match s with
  | EmptyString => [EmptyString]
  | String a s' =>
      if Ascii.eqb a c then [EmptyString; s']
      else match split1 c s' with
           | h :: t => String a h :: t
           | [] => [String a EmptyString]
           end
  end.

(** [s.split(c)] for a one-character separator. *)
Fixpoint split (c : ascii) (s : string) : list string :=
  match s with
  | EmptyString => [EmptyString]
  | String a s' =>
      if Ascii.eqb a c then EmptyString :: split c s'
      else match split c s' with
           | h :: t => String a h :: t
           | [] => [String a EmptyString]
           end
  end.

(** [sep.join(xs)]. *)
Definition join (sep : string) (xs : list string) : string :=
  String.concat sep xs.

(** [c * n]. *)
Fixpoint repeat (c : ascii) (n : nat) : string :=
  match n with
  | O => EmptyString
  | S n' => String c (repeat c n')
  end.

(** [s.endswith(c)] for a one-character string [c]. *)
Fixpoint endswith (c : ascii) (s : string) : bool :=
  match s with
  | EmptyString => false
  | String a EmptyString => Ascii.eqb a c
  | String _ s' => endswith c s'
  end.

(** [s.startswith(c)] lifted to a predicate on the first character. *)
Definition starts_by (p : ascii -> bool) (s : string) : bool :=
  match s with
  | EmptyString => false
  | String a _ => p a
  end.

(** The last character satisfies [p]. *)
Fixpoint ends_by (p : ascii -> bool) (s : string) : bool :=
  match s with
  | EmptyString => false
  | String a EmptyString => p a
  | String _ s' => ends_by p s'
  end.

(** Every character satisfies [p]. *)
Fixpoint all_by (p : ascii -> bool) (s : string) : bool :=
  match s with
  | EmptyString => true
  | String a s' => p a && all_by p s'
  end.

(** [x or ""] for an optional string: [None] and [""] are both falsy. *)
Definition or_empty (x : option string) : string :=
  match x with
  | Some s => s
  | None => EmptyString
  end.

(** Truthiness of an optional string, as tested by [if x:]. *)
Definition truthy (x : option string) : bool :=
  match x with
  | Some (String _ _) => true
  | _ => false
  end.

(** What [sep.join(xs).split(sep)] gives back when no item holds the
    separator: [xs] itself, except that the empty list comes back as
    one empty field. *)
Definition fields (xs : list string) : list string :=
  match xs with
  | [] => [""]
  | _ => xs
  end.

(** [sub in s], as a proposition. *)
Definition occurs_in (sub s : string) : Prop :=
  exists pre post, s = pre ++ sub ++ post.

End PyStr.

(* ================================================================== *)
(** ** Python dictionaries: insertion-ordered, keys unique *)

Module PyDict.

Definition t (V : Type) : Type := list (string * V).

Definition empty {V : Type} : t V := [].

(** [d.keys()], in insertion order. *)
Definition keys {V : Type} (d : t V) : list string := map fst d.

(** [d.values()], in insertion order. *)
Definition values {V : Type} (d : t V) : list V := map snd d.

(** [d.get(k)]. *)
Fixpoint get {V : Type} (k : string) (d : t V) : option V :=
  match d with
  | [] => None
  | (k', v) :: d' => if String.eqb k k' then Some v else get k d'
  end.

(** [d[k]]: raises [KeyError] on an absent key. *)
Definition getitem {V : Type} (d : t V) (k : string) : result V :=
  match get k d with
  | Some v => Ok v
  | None => Raise (KeyError k)
  end.

(** [d[k] = v]: a present key keeps its position and takes the new
    value, an absent key is appended. *)
Fixpoint setitem {V : Type} (k : string) (v : V) (d : t V) : t V :=
  match d with
  | [] => [(k, v)]
  | (k', v') :: d' =>
      if String.eqb k k' then (k, v) :: d'
      else (k', v') :: setitem k v d'
  end.

(** [dict(items)] / a dict display [{k1: v1, ..., kn: vn}]. *)
Definition of_items {V : Type} (items : list (string * V)) : t V :=
  fold_left (fun d kv => setitem (fst kv) (snd kv) d) items empty.

(** The representation invariant: no key occurs twice. *)
Definition wf {V : Type} (d : t V) : Prop := NoDup (keys d).

End PyDict.

(* ================================================================== *)
(** ** The client *)

(** [AuthType = Optional[Tuple[str, str]]] *)
Definition AuthType : Type := option (string * string).

(** [verify: Union[bool, str]] *)
Inductive VerifyType : Type :=
| VerifyFlag (b : bool)
| VerifyBundle (path : string).

Record PeopleSoftClient : Type := mkClient {
  base_url : string;
  auth : AuthType;
  ps_token : option string;
  verify : VerifyType;
  timeout : Z
}.

(** [PeopleSoftClient.__init__] *)
Definition init (base_url0 : string) (auth0 : AuthType)
    (ps_token0 : option string) (verify0 : VerifyType) (timeout0 : Z)
    : PeopleSoftClient :=
  {| base_url := PyStr.rstrip "/" base_url0;
     auth := auth0;
     ps_token := ps_token0;
     verify := verify0;
     timeout := timeout0 |}.

(** The prompt dictionary: values are strings, possibly [None]. *)
Definition Prompts : Type := PyDict.t (option string).

(** The [path] local of [_build_executequery_url]. *)
Definition build_path (self : PeopleSoftClient)
    (query_name security output_path : string) : string :=
  PyStr.rstrip "/"
    (base_url self ++ "/" ++ security ++ "/" ++ query_name ++ "/" ++ output_path).

(** The [prompt_names] local of [_build_executequery_url]. *)
Definition prompt_names (prompts : Prompts) : string :=
  PyStr.join "," (PyDict.keys prompts).

(** The [prompt_values] local of [_build_executequery_url]. *)
Definition prompt_values (prompts : Prompts) : result string :=
  vs <- mapM (fun k => v <- PyDict.getitem prompts k ;; Ok (PyStr.or_empty v))
             (PyDict.keys prompts) ;;
  Ok (PyStr.join "," vs).

(** The [query_str] local of [_build_executequery_url]. *)
Definition build_query_str (maxrows : Z) (isconnectedquery : string)
    (names values : string) : string :=
  "isconnectedquery=" ++ isconnectedquery
  ++ "&maxrows=" ++ PyStr.str_of_int maxrows
  ++ "&prompt_uniquepromptname=" ++ names
  ++ "&prompt_fieldvalue=" ++ values.

(** [PeopleSoftClient._build_executequery_url] *)
Definition _build_executequery_url (self : PeopleSoftClient)
    (query_name : string) (prompts : Prompts) (maxrows : Z)
    (isconnectedquery security output_path : string) : result string :=
  let path := build_path self query_name security output_path in
  let names := prompt_names prompts in
  values <- prompt_values prompts ;;
  let query_str := build_query_str maxrows isconnectedquery names values in
  Ok (path ++ "?" ++ query_str).


(* ================================================================== *)
(** ** Response transport *)

(** The keyword arguments of the one [requests.get] call. *)
Record Request : Type := mkRequest {
  req_url : string;
  req_auth : AuthType;
  req_cookies : PyDict.t string;
  req_verify : VerifyType;
  req_timeout : Z
}.

(** What the caller reads of a [requests.Response]. *)
Record Response : Type := mkResponse {
  status_code : Z;
  text : string
}.

(** How [requests] authenticates a call: an [auth] 2-tuple is wrapped
    into [HTTPBasicAuth], [auth=None] adds no credentials. *)
Inductive AuthScheme : Type :=
| NoAuth
| HTTPBasicAuth (username password : string).

Definition auth_scheme (a : AuthType) : AuthScheme :=
  match a with
  | Some (u, p) => HTTPBasicAuth u p
  | None => NoAuth
  end.

(** [requests.Response.raise_for_status]: the library raises [HTTPError]
    for 400 <= status < 500 (client error) and 500 <= status < 600
    (server error), and returns [None] for every other status. *)
Definition raise_for_status (resp : Response) : result unit :=
  let sc := status_code resp in
  if ((400 <=? sc) && (sc <? 500))%Z then
    Raise (HTTPError (PyStr.str_of_int sc ++ " Client Error"))
  else if ((500 <=? sc) && (sc <? 600))%Z then
    Raise (HTTPError (PyStr.str_of_int sc ++ " Server Error"))
  else Ok tt.

(** The [cookies] local of [execute_query]: [if self.ps_token:] tests
    truthiness, so [None] and [""] both leave the dict empty. *)
Definition build_cookies (self : PeopleSoftClient) : PyDict.t string :=
  let cookies := PyDict.empty in
  match ps_token self with
  | Some tok =>
      if PyStr.truthy (Some tok) then PyDict.setitem "PS_TOKEN" tok cookies
      else cookies
  | None => cookies
  end.

(** The arguments [execute_query] hands to [requests.get]. *)
Definition build_request (self : PeopleSoftClient) (url : string) : Request :=
  {| req_url := url;
     req_auth := auth self;
     req_cookies := build_cookies self;
     req_verify := verify self;
     req_timeout := timeout self |}.

(** The message of the [RuntimeError] raised on a failed call. *)
Definition failure_message (resp : Response) : string :=
  "PeopleSoft ExecuteQuery call failed: "
  ++ PyStr.str_of_int (status_code resp) ++ PyStr.nl ++ text resp.

(** The [try: resp.raise_for_status() except Exception] block and the
    final [return resp.text]. *)
Definition check_response (resp : Response) : result string :=
  match raise_for_status resp with
  | Raise _ => Raise (RuntimeError (failure_message resp))
  | Ok _ => Ok (text resp)
  end.

Section Transport.

(** [requests.get]: a response, or a network-level exception. *)
Variable requests_get : Request -> result Response.

(** [PeopleSoftClient.execute_query] *)
Definition execute_query (self : PeopleSoftClient)
    (query_name : string) (prompts : Prompts) (maxrows : Z)
    (isconnectedquery security output_path : string) : result string :=
  url <- _build_executequery_url self query_name prompts maxrows
           isconnectedquery security output_path ;;
  resp <- requests_get (build_request self url) ;;
  check_response resp.

End Transport.

(** Keyword defaults of [execute_query]. *)
Definition default_maxrows : Z := 1000.
Definition default_isconnectedquery : string := "N".
Definition default_security : string := "public".
Definition default_output_path : string := "XMLP/NONFILE".

(* ================================================================== *)
(** ** Element trees, as [xml.etree.ElementTree] hands them out *)

Module ET.

(** An [Element]: its tag (in Clark notation, [{uri}local], when the
    element is in a namespace), the text before its first child
    ([None] when there is none) and its child elements.  The attributes
    and the tail text are never read by the extractor and are left out. *)
Inductive Element : Type :=
| mkElement (tag : string) (text : option string) (children : list Element).

Definition tag (e : Element) : string :=
  match e with mkElement t _ _ => t end.

Definition text (e : Element) : option string :=
  match e with mkElement _ x _ => x end.

Definition children (e : Element) : list Element :=
  match e with mkElement _ _ cs => cs end.

(** [Element.iter()]: the element itself and all its descendants, in
    document order. *)
Fixpoint iter (e : Element) : list Element :=
  match e with
  | mkElement _ _ cs => e :: flat_map iter cs
  end.

End ET.

(** [xs[i]]: raises [IndexError] out of range. *)
Definition py_index {A : Type} (xs : list A) (i : nat) : result A :=
  match nth_error xs i with
  | Some x => Ok x
  | None => Raise IndexError
  end.

(** The nested helper [strip_ns] of [parse_executequery_xml]. *)
Definition strip_ns (tag : string) : result string :=
  if PyStr.contains "}" tag then py_index (PyStr.split1 "}" tag) 1
  else Ok tag.

(** The inner loop [for child in list(node)], threading [row_dict]. *)
Fixpoint build_row (cs : list ET.Element) (row_dict : PyDict.t string)
    : result (PyDict.t string) :=
  match cs with
  | [] => Ok row_dict
  | child :: rest =>
      field_name <- strip_ns (ET.tag child) ;;
      let value := PyStr.strip (PyStr.or_empty (ET.text child)) in
      build_row rest (PyDict.setitem field_name value row_dict)
  end.

(** The outer loop [for node in root.iter()], threading [rows]. *)
Fixpoint collect_rows (nodes : list ET.Element) (rows : list (PyDict.t string))
    : result (list (PyDict.t string)) :=
  match nodes with
  | [] => Ok rows
  | node :: rest =>
      name <- strip_ns (ET.tag node) ;;
      if String.eqb name "row" then
        row_dict <- build_row (ET.children node) PyDict.empty ;;
        collect_rows rest (rows ++ [row_dict])%list
      else collect_rows rest rows
  end.

Section Parser.

(** [ET.fromstring]: the root element, or [ParseError]. *)
Variable fromstring : string -> result ET.Element.

(** [parse_executequery_xml] *)
Definition parse_executequery_xml (xml_text : string)
    : result (list (PyDict.t string)) :=
  root <- fromstring xml_text ;;
  collect_rows (ET.iter root) [].

End Parser.

(* ================================================================== *)
(** ** XML documents with expanded names *)

Module Doc.

(** An expanded element name: the namespace name bound to the element's
    prefix (or to the default namespace), if any, and the local name. *)
Record QName : Type := mkQName {
  ns : option string;
  local : string
}.

Inductive Elem : Type :=
| mkElem (name : QName) (text : option string) (kids : list Elem).

Definition name (e : Elem) : QName :=
  match e with mkElem q _ _ => q end.

Definition text (e : Elem) : option string :=
  match e with mkElem _ x _ => x end.

Definition kids (e : Elem) : list Elem :=
  match e with mkElem _ _ ks => ks end.

(** Clark notation, the tag [ElementTree] gives an element. *)
Definition clark (q : QName) : string :=
  match ns q with
  | Some uri => "{" ++ uri ++ "}" ++ local q
  | None => local q
  end.

(** The tree [ElementTree] builds for a document. *)
Fixpoint to_ET (e : Elem) : ET.Element :=
  match e with
  | mkElem q x ks => ET.mkElement (clark q) x (map to_ET ks)
  end.

(** All elements of a document, in document order. *)
Fixpoint elements (e : Elem) : list Elem :=
  match e with
  | mkElem _ _ ks => e :: flat_map elements ks
  end.

(** Names as XML allows them: a local name is an NCName and a namespace
    name is a URI reference, so neither contains a closing brace. *)
Definition name_ok (q : QName) : bool :=
  negb (PyStr.contains "}" (local q))
  && match ns q with
     | Some uri => negb (PyStr.contains "}" uri)
     | None => true
     end.

Fixpoint names_ok (e : Elem) : bool :=
  match e with
  | mkElem q _ ks => name_ok q && forallb names_ok ks
  end.

(** The element is a row: its local name is [row]. *)
Definition is_row (e : Elem) : bool := String.eqb (local (name e)) "row".

(** Forget every namespace. *)
Fixpoint erase_ns (e : Elem) : Elem :=
  match e with
  | mkElem q x ks => mkElem (mkQName None (local q)) x (map erase_ns ks)
  end.

(** The field value a child element stands for: its text, [None]
    read as empty, without the whitespace around it. *)
Definition field_value (c : Elem) : string :=
  PyStr.strip (PyStr.or_empty (text c)).

(** The field name a child element stands for. *)
Definition field_name (c : Elem) : string := local (name c).

(** One child recorded in a row mapping. *)
Definition put_field (row : PyDict.t string) (c : Elem) : PyDict.t string :=
  PyDict.setitem (field_name c) (field_value c) row.

(** The mapping of a row element: its immediate children recorded one
    after the other. *)
Definition row_mapping (r : Elem) : PyDict.t string :=
  fold_left put_field (kids r) PyDict.empty.

(** The mappings of a document: one per row element, in document order. *)
Definition rows (d : Elem) : list (PyDict.t string) :=
  map row_mapping (filter is_row (elements d)).

End Doc.

(* ================================================================== *)
(** ** Elements with their whole content *)

Module Mixed.

(** An element as the XML text has it: its expanded name, the character
    data before its first sub-element (empty when there is none), and
    its sub-elements, each with the character data that follows it
    inside the parent. *)
Inductive Node : Type :=
| mkNode (name : Doc.QName) (lead : string) (subs : list (Node * string)).

Definition name (n : Node) : Doc.QName :=
  match n with mkNode q _ _ => q end.

Definition lead (n : Node) : string :=
  match n with mkNode _ l _ => l end.

Definition subs (n : Node) : list (Node * string) :=
  match n with mkNode _ _ ss => ss end.

(** The immediate child elements. *)
Definition children (n : Node) : list Node := map fst (subs n).

(** The text content of an element: all its character data, that of its
    descendants included, in document order. *)
Fixpoint text_content (n : Node) : string :=
  match n with
  | mkNode _ l ss =>
      l ++ String.concat ""
             (map (fun p => match p with
                            | (k, tail) => text_content k ++ tail
                            end) ss)
  end.

(** What [ElementTree] keeps of an element for the extractor: [text] is
    the character data before the first sub-element, [None] when there
    is none; the data after a sub-element is its tail and is not part
    of [text]. *)
Fixpoint to_Doc (n : Node) : Doc.Elem :=
  match n with
  | mkNode q l ss =>
      Doc.mkElem q
        (match l with EmptyString => None | _ => Some l end)
        (map (fun p => match p with (k, _) => to_Doc k end) ss)
  end.

(** Whitespace, as the specification's trimming means it: the
    characters below U+0100 that Python counts as whitespace. *)
Definition space_codes : list nat :=
  [9; 10; 11; 12; 13; 28; 29; 30; 31; 32; 133; 160].

Definition is_space (c : ascii) : bool :=
  existsb (Nat.eqb (nat_of_ascii c)) space_codes.

(** A string of whitespace only (the empty string included). *)
Definition blank (s : string) : bool := PyStr.all_by is_space s.

(** [v] is [s] with its leading and trailing whitespace removed: [s] is
    [v] between two runs of whitespace, and [v] neither starts nor ends
    with whitespace. *)
Definition trimmed (s v : string) : Prop :=
  exists l r,
    s = l ++ v ++ r
    /\ blank l = true /\ blank r = true
    /\ PyStr.starts_by is_space v = false
    /\ PyStr.ends_by is_space v = false.

End Mixed.

(* ================================================================== *)
(** ** Reading a URL back *)

(** The part of a URL before its first question mark. *)
Definition url_path (url : string) : string :=
  hd "" (PyStr.split1 "?" url).

(** The part of a URL after its first question mark. *)
Definition url_query (url : string) : string :=
  nth 1 (PyStr.split1 "?" url) "".

(** The [name=value] pairs of the query string, cut at every ampersand
    and at the first equals sign of each piece, nothing decoded. *)
Definition query_params (url : string) : list (string * string) :=
  map (fun piece =>
         let kv := PyStr.split1 "=" piece in (hd "" kv, nth 1 kv ""))
      (PyStr.split "&" (url_query url)).

(** The first value given for a parameter name. *)
Definition query_param (name : string) (url : string) : option string :=
  PyDict.get name (query_params url).

(* ================================================================== *)
(** ** The script [test_peoplesoft_query.py] *)

(** The client the script builds: Basic Auth, no token, certificate
    checks off, the default timeout. *)
Definition script_client : PeopleSoftClient :=
  init "https://192.168.232.228/PSIGW/RESTListeningConnector/PSFT_EP/ExecuteQuery.v1"
       (Some ("your userid", "yourpassword")) None (VerifyFlag false) 60.

(** [prompts = {"VENDOR_STATUS": "I", "VENDOR_ID_OFFSET": ""}] *)
Definition script_prompts : Prompts :=
  PyDict.of_items [("VENDOR_STATUS", Some "I"); ("VENDOR_ID_OFFSET", Some "")].

(** What a run leaves behind: the texts written to standard output, one
    per [print] call, and how the run ended. *)
Definition Run : Type := (list string * result unit)%type.

(** [for r in ...: print(r["VENDOR_ID"], r["VENDOR_NAME_SHORT"])],
    threading the output written so far.  The two subscripts are
    evaluated left to right before anything is written; [print] joins
    its arguments with a space and ends the line. *)
Fixpoint print_rows (rs : list (PyDict.t string)) (out : list string) : Run :=
  match rs with
  | [] => (out, Ok tt)
  | r :: rest =>
      match PyDict.getitem r "VENDOR_ID" with
      | Raise e => (out, Raise e)
      | Ok vendor_id =>
          match PyDict.getitem r "VENDOR_NAME_SHORT" with
          | Raise e => (out, Raise e)
          | Ok vendor_name =>
              print_rows rest
                (out ++ [(vendor_id ++ " " ++ vendor_name ++ PyStr.nl)%string])%list
          end
      end
  end.

Section Script.

Variable requests_get : Request -> result Response.
Variable fromstring : string -> result ET.Element.

(** The module body of [test_peoplesoft_query.py], after its import. *)
Definition test_peoplesoft_query : Run :=
  match execute_query requests_get script_client "FM_VENDOR_MASTER"
          script_prompts 50
          default_isconnectedquery default_security default_output_path with
  | Raise e => ([], Raise e)
  | Ok xml =>
      match parse_executequery_xml fromstring xml with
      | Raise e => ([], Raise e)
      | Ok rows => print_rows (firstn 5 rows) []
      end
  end.

End Script.

(** The line the script writes for a row that has both fields. *)
Definition vendor_line (r : PyDict.t string) : string :=
  PyStr.or_empty (PyDict.get "VENDOR_ID" r) ++ " "
  ++ PyStr.or_empty (PyDict.get "VENDOR_NAME_SHORT" r) ++ PyStr.nl.

(** The field of a row the script reads first and finds missing. *)
Definition missing_field (r : PyDict.t string) : option string :=
  match PyDict.get "VENDOR_ID" r with
  | None => Some "VENDOR_ID"
  | Some _ =>
      match PyDict.get "VENDOR_NAME_SHORT" r with
      | None => Some "VENDOR_NAME_SHORT"
      | Some _ => None
      end
  end.

(* ================================================================== *)
(** ** Lists of names *)

(** The names of a list in the order of their first occurrence. *)
Fixpoint first_occurrences (seen names : list string) : list string :=
  match names with
  | [] => []
  | n :: rest =>
      if existsb (String.eqb n) seen then first_occurrences seen rest
      else n :: first_occurrences (seen ++ [n])%list rest
  end.

(* ================================================================== *)
(** ** Sample inputs *)

(** A client for the endpoint [https://h/ExecuteQuery.v1]. *)
Definition sample_client : PeopleSoftClient :=
  init "https://h/ExecuteQuery.v1" None None (VerifyFlag true) 60.

(** The prompts of the module's usage pattern:
    [{"VENDOR_STATUS": "I", "VENDOR_ID_OFFSET": ""}]. *)
Definition sample_names : list string := ["VENDOR_STATUS"; "VENDOR_ID_OFFSET"].
Definition sample_values : list (option string) := [Some "I"; Some ""].
Definition sample_prompts : Prompts :=
  PyDict.of_items (combine sample_names sample_values).

(** A transport that answers every request with one fixed response. *)
Definition always (resp : Response) : Request -> result Response :=
  fun _ => Ok resp.

(** An element without children. *)
Definition leaf (uri : option string) (l : string) (x : option string) : Doc.Elem :=
  Doc.mkElem (Doc.mkQName uri l) x [].

(** A document with a root and two rows of fields [A] and [B], every
    element in the namespace [uri] (or in none). *)
Definition two_rows (uri : option string) : Doc.Elem :=
  Doc.mkElem (Doc.mkQName uri "data") None
    [ Doc.mkElem (Doc.mkQName uri "row") None
        [leaf uri "A" (Some "1"); leaf uri "B" (Some "2")];
      Doc.mkElem (Doc.mkQName uri "row") None
        [leaf uri "A" (Some "3"); leaf uri "B" (Some "4")] ].

(** A row two levels down, with padded text, an element without text,
    a repeated field and a field that has a child of its own. *)
Definition untidy : Doc.Elem :=
  Doc.mkElem (Doc.mkQName None "data") None
    [ Doc.mkElem (Doc.mkQName None "page") None
        [ Doc.mkElem (Doc.mkQName (Some "urn:x") "row") (Some PyStr.nl)
            [ leaf None "A" (Some ("  1 " ++ PyStr.nl ++ " "));
              leaf None "B" None;
              leaf (Some "urn:y") "A" (Some " 2");
              Doc.mkElem (Doc.mkQName None "C") (Some "x")
                [leaf None "D" (Some "deep")] ] ] ].

(** A document without any row. *)
Definition no_rows : Doc.Elem :=
  Doc.mkElem (Doc.mkQName None "data") None [leaf None "status" (Some "ok")].

(** Texts of the three documents. *)
Definition two_rows_text : string :=
  "<q:data xmlns:q='urn:x'><q:row><q:A>1</q:A><q:B>2</q:B></q:row><q:row><q:A>3</q:A><q:B>4</q:B></q:row></q:data>".

Definition untidy_text : string :=
  "<data><page><x:row xmlns:x='urn:x' xmlns:y='urn:y'>" ++ PyStr.nl
  ++ "<A>  1 " ++ PyStr.nl
  ++ " </A><B/><y:A> 2</y:A><C>x<D>deep</D></C></x:row></page></data>".

Definition no_rows_text : string := "<data><status>ok</status></data>".

(** A text with a tag left open. *)
Definition broken_text : string := "<data><row><A>1</row></data>".

(** Which text stands for which document. *)
Definition sample_texts : PyDict.t Doc.Elem :=
  [ (two_rows_text, two_rows (Some "urn:x"));
    (untidy_text, untidy);
    (no_rows_text, no_rows) ].

(** A stand-in for [ET.fromstring] that knows three texts and rejects
    every other one. *)
Definition sample_fromstring (xml_text : string) : result ET.Element :=
  match PyDict.get xml_text sample_texts with
  | Some d => Ok (Doc.to_ET d)
  | None => Raise (ParseError "not well-formed")
  end.

(** A document whose rows stand at different depths, and a stand-in
    for [ET.fromstring] that also knows the text of each child of its
    root. *)
Definition wrapped : Doc.Elem :=
  Doc.mkElem (Doc.mkQName None "data") None
    [ Doc.mkElem (Doc.mkQName None "row") None [leaf None "A" (Some "1")];
      leaf None "status" (Some "ok");
      Doc.mkElem (Doc.mkQName None "page") None
        [ Doc.mkElem (Doc.mkQName None "row") None [leaf None "A" (Some "2")] ] ].

Definition wrapped_text : string :=
  "<data><row><A>1</A></row><status>ok</status><page><row><A>2</A></row></page></data>".

Definition wrapped_child_texts : list string :=
  [ "<row><A>1</A></row>"; "<status>ok</status>";
    "<page><row><A>2</A></row></page>" ].

Definition subtree_fromstring (xml_text : string) : result ET.Element :=
  match PyDict.get xml_text
          ((wrapped_text, wrapped) :: combine wrapped_child_texts (Doc.kids wrapped))
  with
  | Some d => Ok (Doc.to_ET d)
  | None => Raise (ParseError "not well-formed")
  end.

(** Documents as the script meets them: six complete vendor rows, and
    three rows of which the second has no name. *)
Definition vendor_row (id name : string) : Doc.Elem :=
  Doc.mkElem (Doc.mkQName None "row") None
    [leaf None "VENDOR_ID" (Some id); leaf None "VENDOR_NAME_SHORT" (Some name)].

Definition six_vendors : Doc.Elem :=
  Doc.mkElem (Doc.mkQName None "data") None
    [ vendor_row "V1" "Acme"; vendor_row "V2" "Brio"; vendor_row "V3" "Cyan";
      vendor_row "V4" "Dell"; vendor_row "V5" "Eon"; vendor_row "V6" "Fox" ].

Definition nameless_vendor : Doc.Elem :=
  Doc.mkElem (Doc.mkQName None "data") None
    [ vendor_row "V1" "Acme";
      Doc.mkElem (Doc.mkQName None "row") None [leaf None "VENDOR_ID" (Some "V2")];
      vendor_row "V3" "Cyan" ].

(** A stand-in for [ET.fromstring] that reads every text as one fixed
    document. *)
Definition reads_as (d : Doc.Elem) : string -> result ET.Element :=
  fun _ => Ok (Doc.to_ET d).

(** A row whose fields have padded text, no text, blank text, and
    sub-elements of their own:
    [<row><N>  1 \n </N><B/><W>  \n  </W><C>x<b>y</b>z</C><E><c>..</c> tail </E></row>]. *)
Definition mixed_C : Mixed.Node :=
  Mixed.mkNode (Doc.mkQName None "C") "x"
    [(Mixed.mkNode (Doc.mkQName None "b") "y" [], "z")].

Definition mixed_E : Mixed.Node :=
  Mixed.mkNode (Doc.mkQName None "E") ""
    [(Mixed.mkNode (Doc.mkQName None "c") ".." [], " tail ")].

Definition mixed_row : Mixed.Node :=
  Mixed.mkNode (Doc.mkQName None "row") ""
    [ (Mixed.mkNode (Doc.mkQName None "N") ("  1 " ++ PyStr.nl ++ " ") [], "");
      (Mixed.mkNode (Doc.mkQName None "B") "" [], "");
      (Mixed.mkNode (Doc.mkQName None "W") ("  " ++ PyStr.nl ++ "  ") [], "");
      (mixed_C, "");
      (mixed_E, "") ].

Definition mixed_doc : Doc.Elem :=
  Doc.mkElem (Doc.mkQName None "data") None [Mixed.to_Doc mixed_row].

Definition mixed_text : string :=
  "<data><row><N>  1 " ++ PyStr.nl ++ " </N><B/><W>  " ++ PyStr.nl
  ++ "  </W><C>x<b>y</b>z</C><E><c>..</c> tail </E></row></data>".

(** A stand-in for [ET.fromstring] that knows this one text. *)
Definition mixed_fromstring (xml_text : string) : result ET.Element :=
  if String.eqb xml_text mixed_text then Ok (Doc.to_ET mixed_doc)
  else Raise (ParseError "not well-formed").

(* ================================================================== *)
(** * Facts *)

(** ** Strings *)

Module PyStrFacts.
Import PyStr.

Lemma app_assoc (a b c : string) : (a ++ b) ++ c = a ++ b ++ c.
Proof. induction a as [|x a IH]; simpl; [reflexivity | now rewrite IH]. Qed.

Lemma app_nil_r (a : string) : a ++ "" = a.
Proof. induction a as [|x a IH]; simpl; [reflexivity | now rewrite IH]. Qed.

Lemma contains_app (c : ascii) (a b : string) :
  contains c (a ++ b) = contains c a || contains c b.
Proof.
  induction a as [|x a IH]; simpl; [reflexivity|].
  destruct (Ascii.eqb x c); [reflexivity | exact IH].
Qed.

Lemma contains_single (c a : ascii) :
  contains a (String c "") = Ascii.eqb a c.
Proof. simpl. rewrite Ascii.eqb_sym. now destruct (Ascii.eqb a c). Qed.

(** *** Stripping *)

Lemma rstrip_by_all (p : ascii -> bool) (s : string) :
  all_by p s = true -> rstrip_by p s = "".
Proof.
  induction s as [|c s IH]; simpl; [reflexivity|].
  intros H. apply andb_prop in H as [Hc Hs].
  now rewrite (IH Hs), Hc.
Qed.

Lemma rstrip_by_app_all (p : ascii -> bool) (s r : string) :
  all_by p r = true -> rstrip_by p (s ++ r) = rstrip_by p s.
Proof.
  intros Hr. induction s as [|c s IH]; simpl.
  - now apply rstrip_by_all.
  - now rewrite IH.
Qed.

Lemma all_by_repeat (p : ascii -> bool) (c : ascii) (n : nat) :
  p c = true -> all_by p (repeat c n) = true.
Proof. intros Hc. induction n as [|n IH]; simpl; [reflexivity | now rewrite Hc]. Qed.

(** The stripped string is a prefix; what was cut satisfies [p]. *)
Lemma rstrip_by_split (p : ascii -> bool) (s : string) :
  exists r, s = rstrip_by p s ++ r /\ all_by p r = true.
Proof.
  induction s as [|c s [r [Hr Hall]]]; simpl.
  - exists "". now split.
  - destruct (rstrip_by p s) as [|d t] eqn:E.
    + destruct (p c) eqn:Hc.
      * exists (String c s). simpl. split; [reflexivity|].
        rewrite Hc. simpl in Hr. now rewrite Hr.
      * exists r. simpl. split; [now rewrite Hr at 1 | exact Hall].
    + exists r. split; [|exact Hall].
      simpl. f_equal. exact Hr.
Qed.

Lemma rstrip_by_ends (p : ascii -> bool) (s : string) :
  ends_by p (rstrip_by p s) = false.
Proof.
  induction s as [|c s IH]; simpl; [reflexivity|].
  destruct (rstrip_by p s) as [|d t] eqn:E.
  - destruct (p c) eqn:Hc; simpl; [reflexivity | exact Hc].
  - exact IH.
Qed.

Lemma lstrip_by_split (p : ascii -> bool) (s : string) :
  exists l, s = l ++ lstrip_by p s /\ all_by p l = true.
Proof.
  induction s as [|c s [l [Hl Hall]]]; simpl.
  - exists "". now split.
  - destruct (p c) eqn:Hc.
    + exists (String c l). simpl. rewrite Hc. split; [now f_equal | exact Hall].
    + exists "". now split.
Qed.

Lemma lstrip_by_starts (p : ascii -> bool) (s : string) :
  starts_by p (lstrip_by p s) = false.
Proof.
  induction s as [|c s IH]; simpl; [reflexivity|].
  destruct (p c) eqn:Hc; [exact IH | simpl; exact Hc].
Qed.

Lemma lstrip_by_keeps_end (p q : ascii -> bool) (s : string) :
  ends_by q s = false -> ends_by q (lstrip_by p s) = false.
Proof.
  induction s as [|c s IH]; simpl; [reflexivity|].
  intros H. destruct (p c).
  - apply IH. destruct s; [reflexivity | exact H].
  - exact H.
Qed.

Lemma ends_by_ext (p q : ascii -> bool) (s : string) :
  (forall a, p a = q a) -> ends_by p s = ends_by q s.
Proof.
  intros E. induction s as [|c s IH]; simpl; [reflexivity|].
  destruct s; [apply E | exact IH].
Qed.

Lemma endswith_ends_by (c : ascii) (s : string) :
  endswith c s = ends_by (fun a => contains a (String c "")) s.
Proof.
  induction s as [|a s IH]; simpl; [reflexivity|].
  destruct s as [|b s].
  - rewrite (Ascii.eqb_sym c a). now destruct (Ascii.eqb a c).
  - exact IH.
Qed.

(** [s.rstrip(c)] never ends with [c]. *)
Lemma rstrip_no_trailing (c : ascii) (s : string) :
  endswith c (rstrip (String c "") s) = false.
Proof. rewrite endswith_ends_by. apply rstrip_by_ends. Qed.

(** [s.rstrip(c)] only forgets a run of [c]. *)
Lemma rstrip_cut (c : ascii) (s : string) :
  exists k, s = rstrip (String c "") s ++ repeat c k.
Proof.
  destruct (rstrip_by_split (fun a => contains a (String c "")) s) as [r [Hr Hall]].
  exists (String.length r). unfold rstrip. rewrite Hr at 1. f_equal.
  clear Hr. induction r as [|a r IH]; simpl; [reflexivity|].
  simpl in Hall. rewrite (Ascii.eqb_sym c a) in Hall.
  destruct (Ascii.eqb_spec a c) as [->|]; [|discriminate].
  f_equal. now apply IH.
Qed.

Lemma rstrip_app_repeat (c : ascii) (s : string) (n : nat) :
  rstrip (String c "") (s ++ repeat c n) = rstrip (String c "") s.
Proof.
  apply rstrip_by_app_all, all_by_repeat. simpl. now rewrite Ascii.eqb_refl.
Qed.

(** [s.strip()] is [s] without a whitespace prefix and a whitespace
    suffix, and neither starts nor ends with whitespace. *)
Lemma strip_spec (s : string) :
  exists l r, s = l ++ strip s ++ r
    /\ all_by isspace l = true /\ all_by isspace r = true
    /\ starts_by isspace (strip s) = false
    /\ ends_by isspace (strip s) = false.
Proof.
  destruct (rstrip_by_split isspace s) as [r [Hr Hrall]].
  destruct (lstrip_by_split isspace (rstrip_by isspace s)) as [l [Hl Hlall]].
  exists l, r. unfold strip. repeat split; try assumption.
  - rewrite <- app_assoc, <- Hl. exact Hr.
  - apply lstrip_by_starts.
  - apply lstrip_by_keeps_end, rstrip_by_ends.
Qed.

Lemma strip_whitespace (s : string) :
  all_by isspace s = true -> strip s = "".
Proof. intros H. unfold strip. now rewrite rstrip_by_all. Qed.

(** *** Splitting and joining *)

Lemma split1_no_sep (c : ascii) (s : string) :
  contains c s = false -> split1 c s = [s].
Proof.
  induction s as [|a s IH]; simpl; [reflexivity|].
  destruct (Ascii.eqb a c); [discriminate|].
  intros H. now rewrite (IH H).
Qed.

Lemma split1_first (c : ascii) (a b : string) :
  contains c a = false -> split1 c (a ++ String c b) = [a; b].
Proof.
  induction a as [|x a IH]; simpl.
  - now rewrite Ascii.eqb_refl.
  - destruct (Ascii.eqb x c); [discriminate|].
    intros H. now rewrite (IH H).
Qed.

Lemma split_no_sep (c : ascii) (s : string) :
  contains c s = false -> split c s = [s].
Proof.
  induction s as [|a s IH]; simpl; [reflexivity|].
  destruct (Ascii.eqb a c); [discriminate|].
  intros H. now rewrite (IH H).
Qed.

Lemma split_first (c : ascii) (a b : string) :
  contains c a = false -> split c (a ++ String c b) = a :: split c b.
Proof.
  induction a as [|x a IH]; simpl.
  - now rewrite Ascii.eqb_refl.
  - destruct (Ascii.eqb x c); [discriminate|].
    intros H. now rewrite (IH H).
Qed.

Lemma split_join (c : ascii) (xs : list string) :
  Forall (fun x => contains c x = false) xs ->
  split c (join (String c "") xs) = fields xs.
Proof.
  induction 1 as [|x xs Hx Hxs IH]; [reflexivity|].
  destruct xs as [|y ys].
  - simpl. now apply split_no_sep.
  - change (join (String c "") (x :: y :: ys))
      with (x ++ String c (join (String c "") (y :: ys))).
    rewrite (split_first c _ _ Hx), IH. reflexivity.
Qed.

Lemma length_fields (xs : list string) :
  List.length (fields xs) = Nat.max 1 (List.length xs).
Proof. destruct xs; reflexivity. Qed.

End PyStrFacts.

(* ================================================================== *)
(** ** Dictionaries *)

Module PyDictFacts.
Import PyDict.

Section WithValues.
Context {V : Type}.
Implicit Types (d : t V) (k : string) (v : V).

Lemma get_In_keys k d : get k d <> None <-> In k (keys d).
Proof.
  induction d as [|[k' v'] d IH]; simpl.
  - split; [congruence | tauto].
  - destruct (String.eqb_spec k k') as [->|Hne].
    + split; [auto | congruence].
    + rewrite IH. split; [auto | intros [?|?]; [congruence | assumption]].
Qed.

Lemma get_not_In k d : ~ In k (keys d) -> get k d = None.
Proof.
  intros H. destruct (get k d) eqn:E; [|reflexivity].
  exfalso. apply H, get_In_keys. congruence.
Qed.

Lemma get_setitem_same k v d : get k (setitem k v d) = Some v.
Proof.
  induction d as [|[k' v'] d IH]; simpl.
  - now rewrite String.eqb_refl.
  - destruct (String.eqb_spec k k') as [->|Hne]; simpl.
    + now rewrite String.eqb_refl.
    + destruct (String.eqb_spec k k'); [contradiction | exact IH].
Qed.

Lemma get_setitem_other k k' v d :
  k' <> k -> get k' (setitem k v d) = get k' d.
Proof.
  intros Hne. induction d as [|[k0 v0] d IH]; simpl.
  - destruct (String.eqb_spec k' k); [contradiction | reflexivity].
  - destruct (String.eqb_spec k k0) as [->|Hk]; simpl.
    + destruct (String.eqb_spec k' k0); [contradiction | reflexivity].
    + destruct (String.eqb_spec k' k0); [reflexivity | exact IH].
Qed.

Lemma keys_setitem k k' v d :
  In k' (keys (setitem k v d)) <-> k' = k \/ In k' (keys d).
Proof.
  induction d as [|[k0 v0] d IH]; simpl.
  - intuition.
  - destruct (String.eqb_spec k k0) as [->|Hk]; simpl.
    + intuition.
    + rewrite IH. intuition.
Qed.

Lemma setitem_fresh k v d :
  ~ In k (keys d) -> setitem k v d = (d ++ [(k, v)])%list.
Proof.
  induction d as [|[k0 v0] d IH]; simpl; [reflexivity|].
  intros H. destruct (String.eqb_spec k k0) as [->|Hk].
  - exfalso. apply H. now left.
  - f_equal. apply IH. tauto.
Qed.

(** Assignment keeps the keys unique. *)
Lemma wf_setitem k v d : wf d -> wf (setitem k v d).
Proof.
  unfold wf. induction d as [|[k0 v0] d IH]; simpl; intros H.
  - constructor; [simpl; tauto | constructor].
  - inversion H as [|? ? Hnin Hd]; subst.
    destruct (String.eqb_spec k k0) as [->|Hk]; simpl.
    + now constructor.
    + constructor; [|now apply IH].
      intros Hin. apply (keys_setitem k k0 v d) in Hin as [?|?]; [congruence | tauto].
Qed.

Lemma of_items_acc (items acc : list (string * V)) :
  NoDup (keys acc ++ map fst items) ->
  fold_left (fun d kv => setitem (fst kv) (snd kv) d) items acc
  = (acc ++ items)%list.
Proof.
  revert acc. induction items as [|[k v] items IH]; intros acc H; simpl.
  - now rewrite List.app_nil_r.
  - simpl in H. rewrite setitem_fresh.
    + rewrite IH; [now rewrite <- List.app_assoc|].
      unfold keys. rewrite map_app. simpl. now rewrite <- List.app_assoc.
    + apply NoDup_remove_2 in H. intros Hin. apply H, in_or_app. now left.
Qed.

(** A display with distinct keys is stored as written. *)
Lemma of_items_distinct (items : list (string * V)) :
  NoDup (map fst items) -> of_items items = items.
Proof. intros H. unfold of_items. now rewrite of_items_acc. Qed.

(** On a well-formed dict, looking up each key in turn reads the values
    in order. *)
Lemma get_own_keys d :
  wf d -> map (fun k => get k d) (keys d) = map Some (values d).
Proof.
  unfold wf. induction d as [|[k v] d IH]; simpl; intros H; [reflexivity|].
  inversion H as [|? ? Hnin Hd]; subst.
  rewrite String.eqb_refl. f_equal.
  rewrite <- (IH Hd). apply map_ext_in. intros k' Hin.
  destruct (String.eqb_spec k' k) as [->|]; [contradiction | reflexivity].
Qed.

End WithValues.

End PyDictFacts.

(** ** The error monad *)

Lemma mapM_pure {A B : Type} (f : A -> result B) (g : A -> B) (xs : list A) :
  (forall x, In x xs -> f x = Ok (g x)) -> mapM f xs = Ok (map g xs).
Proof.
  induction xs as [|x xs IH]; simpl; intros H; [reflexivity|].
  rewrite (H x (or_introl eq_refl)). simpl.
  rewrite IH; [reflexivity|]. intros y Hy. apply H. now right.
Qed.

Lemma mapM_length {A B : Type} (f : A -> result B) (xs : list A) (ys : list B) :
  mapM f xs = Ok ys -> List.length ys = List.length xs.
Proof.
  revert ys. induction xs as [|x xs IH]; simpl; intros ys H.
  - now inversion H.
  - destruct (f x); simpl in H; [|discriminate].
    destruct (mapM f xs); simpl in H; [|discriminate].
    inversion H; subst. simpl. f_equal. now apply IH.
Qed.

(* ================================================================== *)
(** ** Query URL builder *)

Lemma prompt_values_ok (prompts : Prompts) :
  PyDict.wf prompts ->
  prompt_values prompts
  = Ok (PyStr.join "," (map PyStr.or_empty (PyDict.values prompts))).
Proof.
  intros Hwf. unfold prompt_values.
  pose (g := fun k => PyStr.or_empty
                        (match PyDict.get k prompts with
                         | Some v => v
                         | None => None
                         end)).
  rewrite (mapM_pure _ g).
  - simpl. do 2 f_equal. unfold g.
    rewrite <- (map_map (fun k => PyDict.get k prompts)
                  (fun o => PyStr.or_empty
                              match o with Some v => v | None => None end)).
    rewrite (PyDictFacts.get_own_keys _ Hwf), map_map. reflexivity.
  - intros k Hk. unfold g, PyDict.getitem.
    apply PyDictFacts.get_In_keys in Hk.
    destruct (PyDict.get k prompts); [reflexivity | congruence].
Qed.

(** The builder never raises: every key it looks up is a key of the
    dictionary it iterates. *)
Lemma prompt_values_total (prompts : Prompts) :
  exists vs, prompt_values prompts = Ok vs.
Proof.
  unfold prompt_values.
  pose (g := fun k => PyStr.or_empty
                        (match PyDict.get k prompts with
                         | Some v => v
                         | None => None
                         end)).
  rewrite (mapM_pure _ g).
  - simpl. eauto.
  - intros k Hk. unfold g, PyDict.getitem.
    apply PyDictFacts.get_In_keys in Hk.
    destruct (PyDict.get k prompts); [reflexivity | congruence].
Qed.

Lemma keys_combine {V : Type} (names : list string) (vals : list V) :
  List.length names = List.length vals ->
  PyDict.keys (combine names vals) = names
  /\ PyDict.values (combine names vals) = vals.
Proof.
  revert vals. induction names as [|n names IH]; intros [|v vals] H;
    simpl in *; try discriminate; [now split|].
  injection H as H. destruct (IH vals H) as [Hk Hv].
  unfold PyDict.keys, PyDict.values in *. now rewrite Hk, Hv.
Qed.

(** C1.  For names [a1..an] (distinct, as the keys of a dict are) and
    values [v1..vn], the built URL carries
    [prompt_uniquepromptname=a1,...,an] and [prompt_fieldvalue=v1,...,vn]
    in input order; a value that is [None] or empty is rendered as the
    empty string at its position; [execute_query] requests exactly this
    URL: it is the URL of the one request handed to the transport. *)
Theorem C1_prompt_parameters :
  forall (requests_get : Request -> result Response)
         (self : PeopleSoftClient) (query_name : string)
         (names : list string) (values : list (option string))
         (maxrows : Z) (isconnectedquery security output_path : string),
    List.length names = List.length values ->
    NoDup names ->
    let prompts := PyDict.of_items (combine names values) in
    let url :=
      build_path self query_name security output_path
      ++ "?isconnectedquery=" ++ isconnectedquery
      ++ "&maxrows=" ++ PyStr.str_of_int maxrows
      ++ "&prompt_uniquepromptname=" ++ PyStr.join "," names
      ++ "&prompt_fieldvalue=" ++ PyStr.join "," (map PyStr.or_empty values) in
    _build_executequery_url self query_name prompts maxrows
      isconnectedquery security output_path = Ok url
    /\ execute_query requests_get self query_name prompts maxrows
         isconnectedquery security output_path
       = (resp <- requests_get (build_request self url) ;; check_response resp)
    /\ req_url (build_request self url) = url
    /\ (forall i, nth i (map PyStr.or_empty values) ""
                  = PyStr.or_empty (nth i values None))
    /\ PyStr.or_empty None = ""
    /\ PyStr.or_empty (Some "") = "".
Proof.
  intros get self qn names values maxrows icq sec op Hlen Hnd prompts url.
  destruct (keys_combine names values Hlen) as [Hk Hv].
  assert (Hitems : prompts = combine names values).
  { apply PyDictFacts.of_items_distinct. fold (PyDict.keys (combine names values)).
    now rewrite Hk. }
  assert (Hurl : _build_executequery_url self qn prompts maxrows icq sec op = Ok url).
  { unfold _build_executequery_url. rewrite prompt_values_ok.
    - simpl. unfold url, build_query_str, prompt_names.
      rewrite Hitems, Hk, Hv. reflexivity.
    - unfold PyDict.wf. now rewrite Hitems, Hk. }
  split; [exact Hurl|]. split.
  - unfold execute_query. now rewrite Hurl.
  - split; [reflexivity|]. split; [|now split]. intros i.
    exact (map_nth PyStr.or_empty values None i).
Qed.

Lemma sample_names_distinct : NoDup sample_names.
Proof.
  unfold sample_names. constructor.
  - simpl. intros [H|[]]. discriminate H.
  - constructor; [simpl; tauto | constructor].
Defined.

Lemma C1_prompt_parameters_witness :
  _build_executequery_url sample_client "Q" sample_prompts 10
    "N" "public" "XMLP/NONFILE"
  = Ok ("https://h/ExecuteQuery.v1/public/Q/XMLP/NONFILE"
        ++ "?isconnectedquery=N&maxrows=10"
        ++ "&prompt_uniquepromptname=VENDOR_STATUS,VENDOR_ID_OFFSET"
        ++ "&prompt_fieldvalue=I,").
Proof.
  exact (proj1 (C1_prompt_parameters (always (mkResponse 200 ""))
                  sample_client "Q" sample_names sample_values 10
                  "N" "public" "XMLP/NONFILE" eq_refl sample_names_distinct)).
Defined.

(** C3, for prompts without commas.  When no prompt name and no prompt
    value holds a comma, cutting the two emitted lists at their commas
    gives back the names and the rendered values, one field per prompt
    and in the same order, an empty value being an empty field; the two
    lists then have the same number of fields. *)
Theorem C3_fields_aligned :
  forall prompts : Prompts,
    PyDict.wf prompts ->
    Forall (fun k => PyStr.contains "," k = false) (PyDict.keys prompts) ->
    Forall (fun v => PyStr.contains "," (PyStr.or_empty v) = false)
           (PyDict.values prompts) ->
    exists vs,
      prompt_values prompts = Ok vs
      /\ PyStr.split "," (prompt_names prompts) = PyStr.fields (PyDict.keys prompts)
      /\ PyStr.split "," vs
         = PyStr.fields (map PyStr.or_empty (PyDict.values prompts))
      /\ List.length (PyStr.split "," (prompt_names prompts))
         = List.length (PyStr.split "," vs).
Proof.
  intros prompts Hwf Hk Hv.
  exists (PyStr.join "," (map PyStr.or_empty (PyDict.values prompts))).
  assert (Hn : PyStr.split "," (prompt_names prompts)
               = PyStr.fields (PyDict.keys prompts))
    by (apply PyStrFacts.split_join; exact Hk).
  assert (Hs : PyStr.split ","
                 (PyStr.join "," (map PyStr.or_empty (PyDict.values prompts)))
               = PyStr.fields (map PyStr.or_empty (PyDict.values prompts))).
  { apply PyStrFacts.split_join. apply Forall_map. exact Hv. }
  repeat split; [now apply prompt_values_ok | exact Hn | exact Hs |].
  rewrite Hn, Hs, !PyStrFacts.length_fields, length_map.
  unfold PyDict.keys, PyDict.values. now rewrite !length_map.
Qed.

Lemma C3_fields_aligned_witness :
  exists vs,
    prompt_values sample_prompts = Ok vs
    /\ PyStr.split "," (prompt_names sample_prompts)
       = ["VENDOR_STATUS"; "VENDOR_ID_OFFSET"]
    /\ PyStr.split "," vs = ["I"; ""]
    /\ List.length (PyStr.split "," (prompt_names sample_prompts))
       = List.length (PyStr.split "," vs).
Proof.
  apply (C3_fields_aligned sample_prompts).
  - exact sample_names_distinct.
  - repeat constructor.
  - repeat constructor.
Defined.

(** C3 does not extend to all strings: a value holding a comma makes
    the value list one field longer than the name list. *)
Lemma C3_counterexample :
  let prompts := PyDict.of_items [("VENDOR_NAME", Some "Smith, John")] in
  PyDict.wf prompts
  /\ prompt_values prompts = Ok "Smith, John"
  /\ PyStr.split "," (prompt_names prompts) = ["VENDOR_NAME"]
  /\ PyStr.split "," "Smith, John" = ["Smith"; " John"]
  /\ List.length (PyStr.split "," (prompt_names prompts))
     <> List.length (PyStr.split "," "Smith, John").
Proof.
  simpl. repeat split.
  - constructor; [simpl; tauto | constructor].
  - discriminate.
Qed.

(** The path of a built URL can be read back when the path holds no
    question mark. *)
Lemma url_path_app (path query : string) :
  PyStr.contains "?" path = false -> url_path (path ++ "?" ++ query) = path.
Proof.
  intros H. unfold url_path. simpl.
  exact (f_equal (hd "") (PyStrFacts.split1_first "?" path query H)).
Qed.

(** C4.  The built URL is the path, a question mark and the query
    string, where the path is [{base}/{security}/{query_name}/{output_path}]
    with its trailing slashes removed: it never ends with a slash, and
    with an empty output path it is what [{base}/{security}/{query_name}]
    gives.  For base [https://h/ExecuteQuery.v1], query [Q], security
    [public] and output path [XMLP/NONFILE] the path read back from the
    URL is [https://h/ExecuteQuery.v1/public/Q/XMLP/NONFILE]. *)
Theorem C4_path_portion :
  (forall (self : PeopleSoftClient) (query_name : string) (prompts : Prompts)
          (maxrows : Z) (isconnectedquery security output_path : string),
      let path :=
        PyStr.rstrip "/"
          (base_url self ++ "/" ++ security ++ "/" ++ query_name
           ++ "/" ++ output_path) in
      (exists query_str,
          _build_executequery_url self query_name prompts maxrows
            isconnectedquery security output_path
          = Ok (path ++ "?" ++ query_str))
      /\ PyStr.endswith "/" path = false
      /\ build_path self query_name security ""
         = PyStr.rstrip "/" (base_url self ++ "/" ++ security ++ "/" ++ query_name))
  /\ (url <- _build_executequery_url sample_client "Q" sample_prompts 10
               "N" "public" "XMLP/NONFILE" ;;
      Ok (url_path url))
     = Ok "https://h/ExecuteQuery.v1/public/Q/XMLP/NONFILE".
Proof.
  split; [|reflexivity].
  intros self qn prompts maxrows icq sec op path. split; [|split].
  - unfold _build_executequery_url.
    destruct (prompt_values_total prompts) as [vs ->]. simpl. eauto.
  - apply PyStrFacts.rstrip_no_trailing.
  - unfold build_path.
    replace (base_url self ++ "/" ++ sec ++ "/" ++ qn ++ "/" ++ "")
      with ((base_url self ++ "/" ++ sec ++ "/" ++ qn) ++ PyStr.repeat "/" 1).
    + apply PyStrFacts.rstrip_app_repeat.
    + rewrite !PyStrFacts.app_assoc. reflexivity.
Qed.

(** C10.  The constructor removes every trailing slash of [base_url]:
    what it stores does not end with a slash and differs from the
    argument by a run of slashes only.  Two arguments that differ only
    in their trailing slashes give the same client, hence the same URL
    for the same remaining inputs. *)
Theorem C10_trailing_slashes :
  forall (stem : string) (n m : nat) (auth0 : AuthType)
         (ps_token0 : option string) (verify0 : VerifyType) (timeout0 : Z),
    let c1 := init (stem ++ PyStr.repeat "/" n) auth0 ps_token0 verify0 timeout0 in
    let c2 := init (stem ++ PyStr.repeat "/" m) auth0 ps_token0 verify0 timeout0 in
    PyStr.endswith "/" (base_url c1) = false
    /\ (exists k, stem ++ PyStr.repeat "/" n = base_url c1 ++ PyStr.repeat "/" k)
    /\ c1 = c2
    /\ (forall query_name prompts maxrows isconnectedquery security output_path,
           _build_executequery_url c1 query_name prompts maxrows
             isconnectedquery security output_path
           = _build_executequery_url c2 query_name prompts maxrows
               isconnectedquery security output_path).
Proof.
  intros stem n m a t v to c1 c2.
  assert (E : c1 = c2).
  { unfold c1, c2, init. now rewrite !PyStrFacts.rstrip_app_repeat. }
  split; [apply PyStrFacts.rstrip_no_trailing|].
  split; [apply PyStrFacts.rstrip_cut|].
  split; [exact E|]. intros. now rewrite E.
Qed.

(** *** Reading the parameters back *)

Lemma uint_no_amp (d : Decimal.uint) :
  PyStr.contains "&" (NilEmpty.string_of_uint d) = false.
Proof. induction d; simpl; auto. Qed.

(** [str(n)] holds digits and a sign only. *)
Lemma str_of_int_no_amp (z : Z) :
  PyStr.contains "&" (PyStr.str_of_int z) = false.
Proof.
  unfold PyStr.str_of_int, NilZero.string_of_int, NilZero.string_of_uint.
  destruct (Z.to_int z) as [d|d]; destruct d; simpl;
    auto using uint_no_amp.
Qed.

Lemma query_pieces (maxrows : Z) (isconnectedquery names values : string) :
  PyStr.contains "&" isconnectedquery = false ->
  PyStr.contains "&" names = false ->
  PyStr.contains "&" values = false ->
  PyStr.split "&" (build_query_str maxrows isconnectedquery names values)
  = [ "isconnectedquery=" ++ isconnectedquery;
      "maxrows=" ++ PyStr.str_of_int maxrows;
      "prompt_uniquepromptname=" ++ names;
      "prompt_fieldvalue=" ++ values ].
Proof.
  intros Hi Hn Hv. unfold build_query_str.
  replace ("isconnectedquery=" ++ isconnectedquery
           ++ "&maxrows=" ++ PyStr.str_of_int maxrows
           ++ "&prompt_uniquepromptname=" ++ names
           ++ "&prompt_fieldvalue=" ++ values)
    with (("isconnectedquery=" ++ isconnectedquery)
          ++ String "&"
               (("maxrows=" ++ PyStr.str_of_int maxrows)
                ++ String "&"
                     (("prompt_uniquepromptname=" ++ names)
                      ++ String "&" ("prompt_fieldvalue=" ++ values))))
    by (rewrite !PyStrFacts.app_assoc; reflexivity).
  rewrite !PyStrFacts.split_first, PyStrFacts.split_no_sep;
    try reflexivity;
    rewrite PyStrFacts.contains_app; simpl;
    auto using str_of_int_no_amp.
Qed.

(** When the path holds no question mark and the connected-query flag,
    the names and the values hold no ampersand, a reader that cuts the
    URL at [?], [&] and [=] finds the two prompt parameters as they
    were joined. *)
Lemma query_param_read_back (path : string) (maxrows : Z)
    (isconnectedquery names values : string) :
  PyStr.contains "?" path = false ->
  PyStr.contains "&" isconnectedquery = false ->
  PyStr.contains "&" names = false ->
  PyStr.contains "&" values = false ->
  let url := path ++ "?"
             ++ build_query_str maxrows isconnectedquery names values in
  url_path url = path
  /\ query_param "prompt_uniquepromptname" url = Some names
  /\ query_param "prompt_fieldvalue" url = Some values.
Proof.
  intros Hp Hi Hn Hv url.
  assert (Hq : url_query url
               = build_query_str maxrows isconnectedquery names values).
  { unfold url_query, url. simpl.
    now rewrite (PyStrFacts.split1_first "?" path _ Hp). }
  split; [now apply url_path_app|].
  unfold query_param, query_params. rewrite Hq, query_pieces by assumption.
  split; reflexivity.
Qed.

(* ================================================================== *)
(** ** Response transport *)

Lemma occurs_in_middle (pre sub post : string) :
  PyStr.occurs_in sub (pre ++ sub ++ post).
Proof. now exists pre, post. Qed.

Lemma occurs_in_end (pre sub : string) : PyStr.occurs_in sub (pre ++ sub).
Proof. exists pre, "". now rewrite PyStrFacts.app_nil_r. Qed.

(** The failure message holds the status code and the whole body. *)
Lemma failure_message_contents (resp : Response) :
  PyStr.occurs_in (PyStr.str_of_int (status_code resp)) (failure_message resp)
  /\ PyStr.occurs_in (text resp) (failure_message resp).
Proof.
  unfold failure_message. split.
  - apply occurs_in_middle.
  - rewrite <- !PyStrFacts.app_assoc. apply occurs_in_end.
Qed.

(** A 2xx response gives its body back, untouched. *)
Lemma check_response_2xx (resp : Response) :
  (200 <= status_code resp <= 299)%Z -> check_response resp = Ok (text resp).
Proof.
  intros H. unfold check_response, raise_for_status.
  destruct (Z.leb_spec 400 (status_code resp)); [lia|]. simpl.
  destruct (Z.leb_spec 500 (status_code resp)); [lia|]. reflexivity.
Qed.

(** A 4xx or 5xx response raises [RuntimeError] with the message. *)
Lemma check_response_4xx_5xx (resp : Response) :
  (400 <= status_code resp < 600)%Z ->
  check_response resp = Raise (RuntimeError (failure_message resp)).
Proof.
  intros H. unfold check_response, raise_for_status.
  destruct (Z.leb_spec 400 (status_code resp)); [|lia].
  destruct (Z.ltb_spec (status_code resp) 500); simpl; [reflexivity|].
  destruct (Z.leb_spec 500 (status_code resp)); [|lia].
  destruct (Z.ltb_spec (status_code resp) 600); simpl; [reflexivity | lia].
Qed.

(** Every other status, 1xx and 3xx among them, is let through: the
    body is returned as for a success. *)
Lemma check_response_other (resp : Response) :
  (status_code resp < 400 \/ 600 <= status_code resp)%Z ->
  check_response resp = Ok (text resp).
Proof.
  intros H. unfold check_response, raise_for_status.
  assert (E1 : ((400 <=? status_code resp) && (status_code resp <? 500))%Z = false).
  { destruct (Z.leb_spec 400 (status_code resp));
      destruct (Z.ltb_spec (status_code resp) 500); simpl; try reflexivity; lia. }
  assert (E2 : ((500 <=? status_code resp) && (status_code resp <? 600))%Z = false).
  { destruct (Z.leb_spec 500 (status_code resp));
      destruct (Z.ltb_spec (status_code resp) 600); simpl; try reflexivity; lia. }
  now rewrite E1, E2.
Qed.

(** What [execute_query] does with the response of the transport. *)
Lemma execute_query_response (requests_get : Request -> result Response)
    (self : PeopleSoftClient) (query_name : string) (prompts : Prompts)
    (maxrows : Z) (isconnectedquery security output_path : string) :
  exists url,
    _build_executequery_url self query_name prompts maxrows
      isconnectedquery security output_path = Ok url
    /\ execute_query requests_get self query_name prompts maxrows
         isconnectedquery security output_path
       = (resp <- requests_get (build_request self url) ;; check_response resp).
Proof.
  unfold execute_query, _build_executequery_url.
  destruct (prompt_values_total prompts) as [vs ->]. simpl. eauto.
Qed.

(** A failure of the transport itself reaches the caller unchanged. *)
Lemma execute_query_transport_error (requests_get : Request -> result Response)
    (self : PeopleSoftClient) (query_name : string) (prompts : Prompts)
    (maxrows : Z) (isconnectedquery security output_path : string) (e : exn) :
  (forall req, requests_get req = Raise e) ->
  execute_query requests_get self query_name prompts maxrows
    isconnectedquery security output_path = Raise e.
Proof.
  intros H.
  destruct (execute_query_response requests_get self query_name prompts
              maxrows isconnectedquery security output_path) as [url [_ ->]].
  now rewrite H.
Qed.

(** Status 500 with body [ORA-12345] raises, and the message holds
    both. *)
Lemma execute_query_500 :
  exists msg,
    execute_query (always (mkResponse 500 "ORA-12345")) sample_client
      "Q" sample_prompts 10 "N" "public" "XMLP/NONFILE"
    = Raise (RuntimeError msg)
    /\ PyStr.occurs_in "500" msg /\ PyStr.occurs_in "ORA-12345" msg.
Proof.
  eexists. split; [reflexivity|].
  exact (failure_message_contents (mkResponse 500 "ORA-12345")).
Qed.

(** C2.  The code at a 3xx status: a response with status 300 is not
    turned into an error, [execute_query] returns its body as it does
    for a 2xx status. *)
Theorem C2_status_300_returns_body :
  raise_for_status (mkResponse 300 "Multiple Choices") = Ok tt
  /\ execute_query (always (mkResponse 300 "Multiple Choices")) sample_client
       "Q" sample_prompts 10 "N" "public" "XMLP/NONFILE"
     = Ok "Multiple Choices".
Proof. split; reflexivity. Qed.

(** C9, for non-empty tokens.  [execute_query] hands the configured
    credential pair to the transport, which applies it as HTTP Basic
    Authentication, and no credentials when none is configured.  A
    non-empty session token is sent as the single cookie [PS_TOKEN]; a
    token that is absent or the empty string sends no cookie. *)
Theorem C9_authentication :
  forall (requests_get : Request -> result Response)
         (self : PeopleSoftClient) (query_name : string) (prompts : Prompts)
         (maxrows : Z) (isconnectedquery security output_path : string),
    (exists url req,
        execute_query requests_get self query_name prompts maxrows
          isconnectedquery security output_path
        = (resp <- requests_get req ;; check_response resp)
        /\ req = build_request self url
        /\ req_auth req = auth self /\ req_cookies req = build_cookies self)
    /\ (forall u p, auth self = Some (u, p) ->
                    auth_scheme (auth self) = HTTPBasicAuth u p)
    /\ (auth self = None -> auth_scheme (auth self) = NoAuth)
    /\ (forall tok, ps_token self = Some tok -> tok <> "" ->
                    build_cookies self = [("PS_TOKEN", tok)])
    /\ (ps_token self = None \/ ps_token self = Some "" ->
        build_cookies self = []).
Proof.
  intros get self qn prompts maxrows icq sec op.
  split; [|split; [|split; [|split]]].
  - destruct (execute_query_response get self qn prompts maxrows icq sec op)
      as [url [_ H]].
    exists url, (build_request self url). now repeat split.
  - intros u p ->. reflexivity.
  - intros ->. reflexivity.
  - intros tok Htok Hne. unfold build_cookies. rewrite Htok.
    destruct tok; [contradiction | reflexivity].
  - intros [H|H]; unfold build_cookies; now rewrite H.
Qed.

Lemma C9_authentication_witness :
  let self := init "https://h/ExecuteQuery.v1" (Some ("PSREST", "secret"))
                (Some "tok123") (VerifyFlag false) 60 in
  auth_scheme (auth self) = HTTPBasicAuth "PSREST" "secret"
  /\ build_cookies self = [("PS_TOKEN", "tok123")]
  /\ build_cookies sample_client = []
  /\ auth_scheme (auth sample_client) = NoAuth.
Proof.
  pose proof (C9_authentication (always (mkResponse 200 "<data/>"))
                (init "https://h/ExecuteQuery.v1" (Some ("PSREST", "secret"))
                   (Some "tok123") (VerifyFlag false) 60)
                "Q" sample_prompts 10 "N" "public" "XMLP/NONFILE")
    as [_ [Hbasic [_ [Htok _]]]].
  pose proof (C9_authentication (always (mkResponse 200 "<data/>"))
                sample_client "Q" sample_prompts 10 "N" "public" "XMLP/NONFILE")
    as [_ [_ [Hnone [_ Hempty]]]].
  cbv zeta. split; [|split; [|split]].
  - apply Hbasic. reflexivity.
  - apply Htok; [reflexivity | discriminate].
  - apply Hempty. left. reflexivity.
  - apply Hnone. reflexivity.
Defined.

(** C9 does not extend to the empty token: a client configured with the
    empty string as its session token sends no [PS_TOKEN] cookie. *)
Lemma C9_counterexample :
  let self := init "https://h/ExecuteQuery.v1" None (Some "") (VerifyFlag true) 60 in
  ps_token self = Some ""
  /\ req_cookies (build_request self "https://h/ExecuteQuery.v1/public/Q") = []
  /\ PyDict.get "PS_TOKEN"
       (req_cookies (build_request self "https://h/ExecuteQuery.v1/public/Q"))
     = None.
Proof. repeat split. Qed.

(* ================================================================== *)
(** ** Row extractor *)

(** *** Tags *)

Lemma split1_found (c : ascii) (s : string) :
  PyStr.contains c s = true -> exists a b, PyStr.split1 c s = [a; b].
Proof.
  induction s as [|x s IH]; simpl; [discriminate|].
  destruct (Ascii.eqb x c); [eauto|].
  intros H. destruct (IH H) as [a [b ->]]. eauto.
Qed.

(** [strip_ns] never raises: [split] is indexed at 1 only when the
    separator occurs. *)
Lemma strip_ns_total (tag : string) : exists s, strip_ns tag = Ok s.
Proof.
  unfold strip_ns. destruct (PyStr.contains "}" tag) eqn:E; [|eauto].
  destruct (split1_found _ _ E) as [a [b ->]]. exists b. reflexivity.
Qed.

(** On the tag of a well-named element [strip_ns] gives the local name. *)
Lemma strip_ns_clark (q : Doc.QName) :
  Doc.name_ok q = true -> strip_ns (Doc.clark q) = Ok (Doc.local q).
Proof.
  destruct q as [[uri|] l]; unfold Doc.name_ok, Doc.clark, strip_ns; simpl;
    intros H; apply andb_prop in H as [Hl Hu];
    apply negb_true_iff in Hl.
  - apply negb_true_iff in Hu.
    rewrite PyStrFacts.contains_app. simpl.
    rewrite orb_true_r, (PyStrFacts.split1_first "}" uri l Hu). reflexivity.
  - now rewrite Hl.
Qed.

(** Outside the well-named documents: a closing brace inside the
    namespace name makes [strip_ns] cut too early. *)
Lemma strip_ns_brace_in_namespace :
  strip_ns (Doc.clark (Doc.mkQName (Some "a}b") "row")) = Ok "b}row".
Proof. reflexivity. Qed.

(** *** Trees *)

Lemma Elem_nested_ind (P : Doc.Elem -> Prop) :
  (forall q x ks, Forall P ks -> P (Doc.mkElem q x ks)) ->
  forall e, P e.
Proof.
  intros H. fix IH 1. intros [q x ks]. apply H.
  induction ks as [|k ks IHks]; constructor; [apply IH | exact IHks].
Qed.

Lemma to_ET_tag (e : Doc.Elem) : ET.tag (Doc.to_ET e) = Doc.clark (Doc.name e).
Proof. now destruct e. Qed.

Lemma to_ET_text (e : Doc.Elem) : ET.text (Doc.to_ET e) = Doc.text e.
Proof. now destruct e. Qed.

Lemma to_ET_children (e : Doc.Elem) :
  ET.children (Doc.to_ET e) = map Doc.to_ET (Doc.kids e).
Proof. now destruct e. Qed.

(** [iter] walks the tree of a document in document order. *)
Lemma iter_to_ET (d : Doc.Elem) :
  ET.iter (Doc.to_ET d) = map Doc.to_ET (Doc.elements d).
Proof.
  induction d as [q x ks IH] using Elem_nested_ind.
  simpl. f_equal.
  induction IH as [|k ks Hk _ IHks]; simpl; [reflexivity|].
  now rewrite map_app, Hk, IHks.
Qed.

Lemma names_ok_elements (d : Doc.Elem) :
  Doc.names_ok d = true ->
  Forall (fun e => Doc.names_ok e = true) (Doc.elements d).
Proof.
  induction d as [q x ks IH] using Elem_nested_ind.
  intros H. simpl. constructor; [exact H|].
  simpl in H. apply andb_prop in H as [_ H].
  induction IH as [|k ks Hk _ IHks]; simpl; [constructor|].
  simpl in H. apply andb_prop in H as [H1 H2].
  apply Forall_app. split; [now apply Hk | now apply IHks].
Qed.

Lemma names_ok_name (e : Doc.Elem) :
  Doc.names_ok e = true -> Doc.name_ok (Doc.name e) = true.
Proof. destruct e; simpl. intros H. now apply andb_prop in H. Qed.

Lemma names_ok_kids (e : Doc.Elem) :
  Doc.names_ok e = true ->
  Forall (fun c => Doc.name_ok (Doc.name c) = true) (Doc.kids e).
Proof.
  destruct e as [q x ks]; simpl. intros H. apply andb_prop in H as [_ H].
  rewrite forallb_forall in H. apply Forall_forall.
  intros c Hc. apply names_ok_name. now apply H.
Qed.

(** *** The two loops *)

Lemma build_row_spec (cs : list Doc.Elem) (row : PyDict.t string) :
  Forall (fun c => Doc.name_ok (Doc.name c) = true) cs ->
  build_row (map Doc.to_ET cs) row = Ok (fold_left Doc.put_field cs row).
Proof.
  intros H. revert row.
  induction H as [|c cs Hc _ IH]; intros row; simpl; [reflexivity|].
  rewrite to_ET_tag, (strip_ns_clark _ Hc), to_ET_text. simpl.
  apply IH.
Qed.

Lemma collect_rows_spec (es : list Doc.Elem) (acc : list (PyDict.t string)) :
  Forall (fun e => Doc.names_ok e = true) es ->
  collect_rows (map Doc.to_ET es) acc
  = Ok (acc ++ map Doc.row_mapping (filter Doc.is_row es))%list.
Proof.
  intros H. revert acc.
  induction H as [|e es He _ IH]; intros acc; simpl.
  - now rewrite List.app_nil_r.
  - rewrite to_ET_tag, (strip_ns_clark _ (names_ok_name _ He)). simpl.
    unfold Doc.is_row.
    destruct (String.eqb (Doc.local (Doc.name e)) "row").
    + rewrite to_ET_children, (build_row_spec _ _ (names_ok_kids _ He)).
      simpl. rewrite IH, <- List.app_assoc. reflexivity.
    + apply IH.
Qed.

Section ParserFacts.

Variable fromstring : string -> result ET.Element.

(** On a well-named document the extractor returns the mappings of its
    row elements. *)
Lemma parse_rows (xml_text : string) (d : Doc.Elem) :
  fromstring xml_text = Ok (Doc.to_ET d) ->
  Doc.names_ok d = true ->
  parse_executequery_xml fromstring xml_text = Ok (Doc.rows d).
Proof.
  intros Hp Hok. unfold parse_executequery_xml. rewrite Hp. simpl.
  rewrite iter_to_ET. now rewrite (collect_rows_spec _ [] (names_ok_elements _ Hok)).
Qed.

End ParserFacts.

(** *** Row mappings *)

Lemma keys_fold_put (cs : list Doc.Elem) (row : PyDict.t string) (k : string) :
  In k (PyDict.keys (fold_left Doc.put_field cs row))
  <-> In k (PyDict.keys row) \/ exists c, In c cs /\ Doc.field_name c = k.
Proof.
  revert row. induction cs as [|c cs IH]; intros row; simpl.
  - split; [auto | intros [H|[c [[] _]]]; exact H].
  - rewrite IH. unfold Doc.put_field. rewrite PyDictFacts.keys_setitem.
    split.
    + intros [[->|H]|[c' [Hc' E]]]; eauto.
    + intros [H|[c' [[->|Hc'] E]]]; eauto.
Qed.

Lemma get_fold_put_other (cs : list Doc.Elem) (row : PyDict.t string) (k : string) :
  ~ In k (map Doc.field_name cs) ->
  PyDict.get k (fold_left Doc.put_field cs row) = PyDict.get k row.
Proof.
  revert row. induction cs as [|c cs IH]; intros row H; simpl; [reflexivity|].
  simpl in H. rewrite IH by tauto.
  apply PyDictFacts.get_setitem_other. intros ->. tauto.
Qed.

(** The last child of a name decides the value stored under it. *)
Lemma get_fold_put_last (before after : list Doc.Elem) (c : Doc.Elem)
    (row : PyDict.t string) :
  ~ In (Doc.field_name c) (map Doc.field_name after) ->
  PyDict.get (Doc.field_name c)
    (fold_left Doc.put_field (before ++ c :: after) row)
  = Some (Doc.field_value c).
Proof.
  intros H. rewrite fold_left_app. simpl.
  rewrite (get_fold_put_other _ _ _ H).
  apply PyDictFacts.get_setitem_same.
Qed.

Lemma wf_fold_put (cs : list Doc.Elem) (row : PyDict.t string) :
  PyDict.wf row -> PyDict.wf (fold_left Doc.put_field cs row).
Proof.
  revert row. induction cs as [|c cs IH]; intros row H; simpl; [exact H|].
  apply IH. now apply PyDictFacts.wf_setitem.
Qed.

(** A field value is the text without a whitespace prefix and suffix. *)
Lemma field_value_spec (c : Doc.Elem) :
  exists l r,
    PyStr.or_empty (Doc.text c) = l ++ Doc.field_value c ++ r
    /\ PyStr.all_by PyStr.isspace l = true
    /\ PyStr.all_by PyStr.isspace r = true
    /\ PyStr.starts_by PyStr.isspace (Doc.field_value c) = false
    /\ PyStr.ends_by PyStr.isspace (Doc.field_value c) = false.
Proof. apply PyStrFacts.strip_spec. Qed.

(** *** Namespaces do not matter *)

Lemma erase_ns_put (row : PyDict.t string) (c : Doc.Elem) :
  Doc.put_field row (Doc.erase_ns c) = Doc.put_field row c.
Proof. now destruct c. Qed.

Lemma erase_ns_row_mapping (r : Doc.Elem) :
  Doc.row_mapping (Doc.erase_ns r) = Doc.row_mapping r.
Proof.
  destruct r as [q x ks]. unfold Doc.row_mapping. simpl.
  generalize (@PyDict.empty string).
  induction ks as [|k ks IH]; intros row; simpl; [reflexivity|].
  now rewrite erase_ns_put, IH.
Qed.

Lemma erase_ns_is_row (e : Doc.Elem) :
  Doc.is_row (Doc.erase_ns e) = Doc.is_row e.
Proof. now destruct e. Qed.

Lemma erase_ns_elements (d : Doc.Elem) :
  Doc.elements (Doc.erase_ns d) = map Doc.erase_ns (Doc.elements d).
Proof.
  induction d as [q x ks IH] using Elem_nested_ind.
  simpl. f_equal.
  induction IH as [|k ks Hk _ IHks]; simpl; [reflexivity|].
  now rewrite map_app, Hk, IHks.
Qed.

Lemma erase_ns_rows (d : Doc.Elem) : Doc.rows (Doc.erase_ns d) = Doc.rows d.
Proof.
  unfold Doc.rows. rewrite erase_ns_elements.
  induction (Doc.elements d) as [|e es IH]; simpl; [reflexivity|].
  rewrite erase_ns_is_row. destruct (Doc.is_row e); simpl; [|exact IH].
  now rewrite erase_ns_row_mapping, IH.
Qed.

(** The code's row test agrees with the local name. *)
Lemma row_test (e : Doc.Elem) :
  Doc.names_ok e = true ->
  (name <- strip_ns (ET.tag (Doc.to_ET e)) ;; Ok (String.eqb name "row"))
  = Ok (Doc.is_row e).
Proof.
  intros H. now rewrite to_ET_tag, (strip_ns_clark _ (names_ok_name _ H)).
Qed.

(** Rows are found at any depth: the elements of a child are elements
    of the parent. *)
Lemma elements_nested (d c e : Doc.Elem) :
  In c (Doc.kids d) -> In e (Doc.elements c) -> In e (Doc.elements d).
Proof.
  destruct d as [q x ks]. simpl. intros Hc He. right.
  apply in_flat_map. eauto.
Qed.

(** The two-row document of the specification, whatever its namespace. *)
Lemma two_rows_mappings (uri : option string) :
  Doc.rows (two_rows uri)
  = [ [("A", "1"); ("B", "2")]; [("A", "3"); ("B", "4")] ].
Proof. reflexivity. Qed.

(** Whitespace-only text extracts to the empty string. *)
Lemma whitespace_only_field :
  Doc.field_value (leaf None "A" (Some ("  " ++ PyStr.nl ++ "  "))) = "".
Proof. reflexivity. Qed.

(** *** The extractor *)

(** C5.  On a document that [ET.fromstring] accepts, the extractor's row
    test succeeds on an element exactly when its local name is [row],
    whatever its namespace and wherever it stands in the tree; the
    result holds one mapping per such element, in document order, and
    is the same when every namespace is forgotten. *)
Theorem C5_rows_by_local_name :
  forall (fromstring : string -> result ET.Element) (xml_text : string)
         (d : Doc.Elem),
    fromstring xml_text = Ok (Doc.to_ET d) ->
    Doc.names_ok d = true ->
    parse_executequery_xml fromstring xml_text
    = Ok (map Doc.row_mapping (filter Doc.is_row (Doc.elements d)))
    /\ (forall e, In e (Doc.elements d) ->
          (name <- strip_ns (ET.tag (Doc.to_ET e)) ;; Ok (String.eqb name "row"))
          = Ok (String.eqb (Doc.local (Doc.name e)) "row"))
    /\ List.length (Doc.rows d)
       = List.length (filter Doc.is_row (Doc.elements d))
    /\ Doc.rows d = Doc.rows (Doc.erase_ns d).
Proof.
  intros fromstring xml_text d Hp Hok. split; [|split; [|split]].
  - exact (parse_rows fromstring xml_text d Hp Hok).
  - intros e He. apply row_test.
    pose proof (names_ok_elements d Hok) as Hall.
    rewrite Forall_forall in Hall. now apply Hall.
  - unfold Doc.rows. apply length_map.
  - symmetry. apply erase_ns_rows.
Qed.

Lemma C5_rows_by_local_name_witness :
  parse_executequery_xml sample_fromstring two_rows_text
  = Ok [ [("A", "1"); ("B", "2")]; [("A", "3"); ("B", "4")] ].
Proof.
  exact (proj1 (C5_rows_by_local_name sample_fromstring two_rows_text
                  (two_rows (Some "urn:x")) eq_refl eq_refl)).
Defined.

(** The row of the untidy document, as extracted: the deeper [D] gives
    no key, [B] is present and empty, the later [A] has won. *)
Lemma untidy_mappings :
  parse_executequery_xml sample_fromstring
    untidy_text
  = Ok [ [("A", "2"); ("B", ""); ("C", "x")] ].
Proof. reflexivity. Qed.

(** C7.  When two or more immediate children of a row share a local
    name, extraction succeeds and the row's mapping holds, under that
    name, the value of the last of them in document order. *)
Theorem C7_last_write_wins :
  forall (fromstring : string -> result ET.Element) (xml_text : string)
         (d : Doc.Elem) (i : nat) (r : Doc.Elem)
         (before between after : list Doc.Elem) (c1 c2 : Doc.Elem),
    fromstring xml_text = Ok (Doc.to_ET d) ->
    Doc.names_ok d = true ->
    nth_error (filter Doc.is_row (Doc.elements d)) i = Some r ->
    Doc.kids r = (before ++ c1 :: between ++ c2 :: after)%list ->
    Doc.local (Doc.name c1) = Doc.local (Doc.name c2) ->
    ~ In (Doc.local (Doc.name c2)) (map Doc.field_name after) ->
    exists rows row,
      parse_executequery_xml fromstring xml_text = Ok rows
      /\ nth_error rows i = Some row
      /\ PyDict.get (Doc.local (Doc.name c1)) row
         = Some (PyStr.strip (PyStr.or_empty (Doc.text c2))).
Proof.
  intros fromstring xml_text d i r before between after c1 c2
         Hp Hok Hr Hkids Hsame Hlast.
  exists (Doc.rows d), (Doc.row_mapping r).
  split; [exact (parse_rows fromstring xml_text d Hp Hok)|].
  split; [exact (map_nth_error Doc.row_mapping i _ Hr)|].
  rewrite Hsame. unfold Doc.row_mapping. rewrite Hkids.
  replace (before ++ c1 :: between ++ c2 :: after)%list
    with ((before ++ c1 :: between) ++ c2 :: after)%list
    by (now rewrite <- List.app_assoc).
  exact (get_fold_put_last _ after c2 _ Hlast).
Qed.

Lemma C7_last_write_wins_witness :
  exists rows row,
    parse_executequery_xml sample_fromstring
      untidy_text
    = Ok rows
    /\ nth_error rows 0 = Some row
    /\ PyDict.get "A" row = Some "2".
Proof.
  apply (C7_last_write_wins sample_fromstring untidy_text untidy 0
           (hd untidy (filter Doc.is_row (Doc.elements untidy)))
           []
           [leaf None "B" None]
           [Doc.mkElem (Doc.mkQName None "C") (Some "x") [leaf None "D" (Some "deep")]]
           (leaf None "A" (Some ("  1 " ++ PyStr.nl ++ " ")))
           (leaf (Some "urn:y") "A" (Some " 2"))
           eq_refl eq_refl eq_refl eq_refl eq_refl).
  simpl. intros [H|[]]. discriminate H.
Defined.

(** C8.  Whatever [ET.fromstring] raises on a text that is not
    well-formed leaves the extractor as it is, so no row list is
    returned; a document without any row element gives the empty list,
    not an error. *)
Theorem C8_parse_error_and_no_rows :
  forall (fromstring : string -> result ET.Element) (xml_text : string),
    (forall e, fromstring xml_text = Raise e ->
               parse_executequery_xml fromstring xml_text = Raise e)
    /\ (forall d, fromstring xml_text = Ok (Doc.to_ET d) ->
                  Doc.names_ok d = true ->
                  filter Doc.is_row (Doc.elements d) = [] ->
                  parse_executequery_xml fromstring xml_text = Ok []).
Proof.
  intros fromstring xml_text. split.
  - intros e H. unfold parse_executequery_xml. now rewrite H.
  - intros d Hp Hok Hnone.
    rewrite (parse_rows fromstring xml_text d Hp Hok).
    unfold Doc.rows. now rewrite Hnone.
Qed.

Lemma C8_parse_error_and_no_rows_witness :
  parse_executequery_xml sample_fromstring broken_text
  = Raise (ParseError "not well-formed")
  /\ parse_executequery_xml sample_fromstring no_rows_text
     = Ok [].
Proof.
  split.
  - apply (proj1 (C8_parse_error_and_no_rows sample_fromstring
                    broken_text)).
    reflexivity.
  - apply (proj2 (C8_parse_error_and_no_rows sample_fromstring
                    no_rows_text) no_rows);
      reflexivity.
Defined.

(* ================================================================== *)
(** * Further properties of the code *)

(** ** Query URL builder and constructor *)

Lemma contains_rstrip (c : ascii) (chars s : string) :
  PyStr.contains c s = false -> PyStr.contains c (PyStr.rstrip chars s) = false.
Proof.
  unfold PyStr.rstrip.
  destruct (PyStrFacts.rstrip_by_split (fun a => PyStr.contains a chars) s)
    as [r [Hr _]].
  intros H. rewrite Hr, PyStrFacts.contains_app in H.
  now apply orb_false_elim in H.
Qed.

Lemma contains_join (c : ascii) (sep : string) (xs : list string) :
  PyStr.contains c sep = false ->
  Forall (fun x => PyStr.contains c x = false) xs ->
  PyStr.contains c (PyStr.join sep xs) = false.
Proof.
  intros Hsep. induction 1 as [|x xs Hx Hxs IH]; [reflexivity|].
  destruct xs as [|y ys]; [exact Hx|].
  change (PyStr.join sep (x :: y :: ys))
    with (x ++ sep ++ PyStr.join sep (y :: ys)).
  now rewrite !PyStrFacts.contains_app, Hx, Hsep, IH.
Qed.

Lemma rstrip_by_fixed (p : ascii -> bool) (s : string) :
  PyStr.ends_by p s = false -> PyStr.rstrip_by p s = s.
Proof.
  induction s as [|c s IH]; [reflexivity|].
  destruct s as [|d s].
  - simpl. now intros ->.
  - intros H. change (PyStr.ends_by p (String d s) = false) in H.
    specialize (IH H).
    change (PyStr.rstrip_by p (String c (String d s)))
      with (match PyStr.rstrip_by p (String d s) with
            | EmptyString => if p c then EmptyString else String c EmptyString
            | r => String c r
            end).
    now rewrite IH.
Qed.

Lemma ends_by_app (p : ascii -> bool) (a b : string) :
  b <> "" -> PyStr.ends_by p (a ++ b) = PyStr.ends_by p b.
Proof.
  intros Hb. induction a as [|c a IH]; [reflexivity|].
  simpl. destruct (a ++ b) eqn:E; [|exact IH].
  destruct a; simpl in E; [contradiction | discriminate].
Qed.

(** X1.  Reading a built URL back.  When the base URL, the security
    string, the query name and the output path hold no question mark and
    the connected-query flag, the prompt names and the prompt values
    hold no ampersand, cutting the URL at its first [?], at every [&]
    and at the first [=] of each piece gives the path and exactly four
    parameters, in the order [isconnectedquery], [maxrows],
    [prompt_uniquepromptname], [prompt_fieldvalue], with the values the
    builder was given. *)
Theorem built_url_reads_back :
  forall (self : PeopleSoftClient) (query_name : string) (prompts : Prompts)
         (maxrows : Z) (isconnectedquery security output_path : string),
    PyDict.wf prompts ->
    PyStr.contains "?" (base_url self) = false ->
    PyStr.contains "?" security = false ->
    PyStr.contains "?" query_name = false ->
    PyStr.contains "?" output_path = false ->
    PyStr.contains "&" isconnectedquery = false ->
    Forall (fun k => PyStr.contains "&" k = false) (PyDict.keys prompts) ->
    Forall (fun v => PyStr.contains "&" (PyStr.or_empty v) = false)
           (PyDict.values prompts) ->
    exists url,
      _build_executequery_url self query_name prompts maxrows
        isconnectedquery security output_path = Ok url
      /\ url_path url = build_path self query_name security output_path
      /\ query_params url
         = [ ("isconnectedquery", isconnectedquery);
             ("maxrows", PyStr.str_of_int maxrows);
             ("prompt_uniquepromptname", PyStr.join "," (PyDict.keys prompts));
             ("prompt_fieldvalue",
              PyStr.join "," (map PyStr.or_empty (PyDict.values prompts))) ].
Proof.
  intros self qn prompts maxrows icq sec op Hwf Hb Hs Hq Ho Hi Hk Hv.
  assert (Hpath : PyStr.contains "?" (build_path self qn sec op) = false).
  { unfold build_path. apply contains_rstrip.
    rewrite !PyStrFacts.contains_app, Hb, Hs, Hq, Ho. reflexivity. }
  assert (Hn : PyStr.contains "&" (prompt_names prompts) = false)
    by (apply contains_join; [reflexivity | exact Hk]).
  assert (Hvs : PyStr.contains "&"
                  (PyStr.join "," (map PyStr.or_empty (PyDict.values prompts)))
                = false).
  { apply contains_join; [reflexivity|]. apply Forall_map. exact Hv. }
  eexists. split.
  - unfold _build_executequery_url. rewrite (prompt_values_ok _ Hwf). reflexivity.
  - split; [now apply url_path_app|].
    unfold query_params, url_query. simpl.
    rewrite (PyStrFacts.split1_first "?" _ _ Hpath).
    cbn [nth].
    rewrite (query_pieces maxrows icq _ _ Hi Hn Hvs). reflexivity.
Qed.

Lemma built_url_reads_back_witness :
  exists url,
    _build_executequery_url sample_client "Q" sample_prompts 10
      "N" "public" "XMLP/NONFILE" = Ok url
    /\ url_path url = "https://h/ExecuteQuery.v1/public/Q/XMLP/NONFILE"
    /\ query_params url
       = [ ("isconnectedquery", "N"); ("maxrows", "10");
           ("prompt_uniquepromptname", "VENDOR_STATUS,VENDOR_ID_OFFSET");
           ("prompt_fieldvalue", "I,") ].
Proof.
  apply (built_url_reads_back sample_client "Q" sample_prompts 10
           "N" "public" "XMLP/NONFILE");
    try reflexivity.
  - exact sample_names_distinct.
  - repeat constructor.
  - repeat constructor.
Defined.

(** X2.  With an output path that is not empty and does not end with a
    slash nothing is stripped: the path is the plain composition
    [{base_url}/{security}/{query_name}/{output_path}], and the URL is
    this path followed by [?] and the query string. *)
Theorem build_path_exact :
  forall (self : PeopleSoftClient) (query_name : string) (prompts : Prompts)
         (maxrows : Z) (isconnectedquery security output_path : string),
    output_path <> "" ->
    PyStr.endswith "/" output_path = false ->
    build_path self query_name security output_path
    = base_url self ++ "/" ++ security ++ "/" ++ query_name ++ "/" ++ output_path
    /\ exists query_str,
         _build_executequery_url self query_name prompts maxrows
           isconnectedquery security output_path
         = Ok (base_url self ++ "/" ++ security ++ "/" ++ query_name ++ "/"
               ++ output_path ++ "?" ++ query_str).
Proof.
  intros self qn prompts maxrows icq sec op Hne Hend.
  assert (E : build_path self qn sec op
              = base_url self ++ "/" ++ sec ++ "/" ++ qn ++ "/" ++ op).
  { unfold build_path, PyStr.rstrip. apply rstrip_by_fixed.
    replace (base_url self ++ "/" ++ sec ++ "/" ++ qn ++ "/" ++ op)
      with ((base_url self ++ "/" ++ sec ++ "/" ++ qn ++ "/") ++ op)
      by (rewrite !PyStrFacts.app_assoc; reflexivity).
    rewrite (ends_by_app _ _ _ Hne), <- PyStrFacts.endswith_ends_by.
    exact Hend. }
  split; [exact E|].
  unfold _build_executequery_url.
  destruct (prompt_values_total prompts) as [vs ->]. simpl.
  rewrite E. eexists. rewrite !PyStrFacts.app_assoc. reflexivity.
Qed.

Lemma build_path_exact_witness :
  build_path sample_client "Q" "public" "XMLP/NONFILE"
  = "https://h/ExecuteQuery.v1/public/Q/XMLP/NONFILE"
  /\ exists query_str,
       _build_executequery_url sample_client "Q" sample_prompts 10
         "N" "public" "XMLP/NONFILE"
       = Ok ("https://h/ExecuteQuery.v1/public/Q/XMLP/NONFILE?" ++ query_str).
Proof.
  apply (build_path_exact sample_client "Q" sample_prompts 10
           "N" "public" "XMLP/NONFILE"); [discriminate | reflexivity].
Defined.

(** X3.  The constructor's normalisation is idempotent: building a
    client from the base URL an earlier client stored gives the same
    client; and the stored base URL is the argument itself exactly when
    the argument does not end with a slash. *)
Theorem init_idempotent :
  forall (base_url0 : string) (auth0 : AuthType) (ps_token0 : option string)
         (verify0 : VerifyType) (timeout0 : Z),
    let c := init base_url0 auth0 ps_token0 verify0 timeout0 in
    init (base_url c) auth0 ps_token0 verify0 timeout0 = c
    /\ (base_url c = base_url0 <-> PyStr.endswith "/" base_url0 = false).
Proof.
  intros b a t v to c.
  assert (Hfix : forall s, PyStr.endswith "/" s = false -> PyStr.rstrip "/" s = s).
  { intros s H. apply rstrip_by_fixed. now rewrite <- PyStrFacts.endswith_ends_by. }
  split.
  - unfold c, init. simpl. f_equal.
    apply Hfix, PyStrFacts.rstrip_no_trailing.
  - split.
    + intros E. rewrite <- E. apply PyStrFacts.rstrip_no_trailing.
    + apply Hfix.
Qed.

(** ** Response transport *)

Lemma str_app_inv_head (p a b : string) : p ++ a = p ++ b -> a = b.
Proof.
  induction p as [|c p IH]; simpl; [auto|].
  intros H. injection H as H. now apply IH.
Qed.

Lemma uint_no_newline (d : Decimal.uint) :
  PyStr.contains "010" (NilEmpty.string_of_uint d) = false.
Proof. induction d; simpl; auto. Qed.

Lemma str_of_int_no_newline (z : Z) :
  PyStr.contains "010" (PyStr.str_of_int z) = false.
Proof.
  unfold PyStr.str_of_int, NilZero.string_of_int, NilZero.string_of_uint.
  destruct (Z.to_int z) as [d|d]; destruct d; simpl;
    auto using uint_no_newline.
Qed.

(** [str] on integers loses nothing. *)
Lemma str_of_int_inj (z1 z2 : Z) :
  PyStr.str_of_int z1 = PyStr.str_of_int z2 -> z1 = z2.
Proof.
  assert (R : forall z, NilZero.int_of_string (PyStr.str_of_int z)
                        = Some (Z.to_int z)).
  { intros z. unfold PyStr.str_of_int. apply NilZero.isi.
    - destruct z; simpl; try discriminate.
      intros [= E]. exact (DecimalPos.Unsigned.to_uint_nonnil _ E).
    - destruct z; simpl; try discriminate.
      intros [= E]. exact (DecimalPos.Unsigned.to_uint_nonnil _ E). }
  intros H. apply DecimalZ.to_int_inj.
  pose proof (R z1) as H1. rewrite H, R in H1. now injection H1.
Qed.

Lemma check_response_cases (resp : Response) :
  ((400 <= status_code resp < 600)%Z
   /\ check_response resp = Raise (RuntimeError (failure_message resp)))
  \/ (~ (400 <= status_code resp < 600)%Z
      /\ check_response resp = Ok (text resp)).
Proof.
  destruct (Z_le_dec 400 (status_code resp)) as [H1|H1];
    [destruct (Z_lt_dec (status_code resp) 600) as [H2|H2]|].
  - left. split; [lia | apply check_response_4xx_5xx; lia].
  - right. split; [lia | apply check_response_other; lia].
  - right. split; [lia | apply check_response_other; lia].
Qed.

(** X4.  [execute_query] returns a body exactly when the transport
    answered the one request with a response of that body whose status
    is not in 400..599. *)
Theorem execute_query_ok_iff :
  forall (requests_get : Request -> result Response)
         (self : PeopleSoftClient) (query_name : string) (prompts : Prompts)
         (maxrows : Z) (isconnectedquery security output_path : string),
    exists url,
      _build_executequery_url self query_name prompts maxrows
        isconnectedquery security output_path = Ok url
      /\ forall body,
           execute_query requests_get self query_name prompts maxrows
             isconnectedquery security output_path = Ok body
           <-> exists resp,
                 requests_get (build_request self url) = Ok resp
                 /\ text resp = body
                 /\ ~ (400 <= status_code resp < 600)%Z.
Proof.
  intros get self qn prompts maxrows icq sec op.
  destruct (execute_query_response get self qn prompts maxrows icq sec op)
    as [url [Hurl Hex]].
  exists url. split; [exact Hurl|]. intros body. rewrite Hex. split.
  - destruct (get (build_request self url)) as [resp|e]; simpl; [|discriminate].
    destruct (check_response_cases resp) as [[_ ->]|[Hout ->]]; [discriminate|].
    intros [= <-]. eauto.
  - intros [resp [-> [<- Hout]]]. simpl.
    destruct (check_response_cases resp) as [[Hin _]|[_ ->]];
      [contradiction | reflexivity].
Qed.

(** X5.  [execute_query] raises exactly in two ways: the transport's own
    exception, passed on unchanged, or, for a response with a status in
    400..599, a [RuntimeError] carrying the failure message of that
    response. *)
Theorem execute_query_raise_iff :
  forall (requests_get : Request -> result Response)
         (self : PeopleSoftClient) (query_name : string) (prompts : Prompts)
         (maxrows : Z) (isconnectedquery security output_path : string),
    exists url,
      _build_executequery_url self query_name prompts maxrows
        isconnectedquery security output_path = Ok url
      /\ forall e,
           execute_query requests_get self query_name prompts maxrows
             isconnectedquery security output_path = Raise e
           <-> requests_get (build_request self url) = Raise e
               \/ exists resp,
                    requests_get (build_request self url) = Ok resp
                    /\ (400 <= status_code resp < 600)%Z
                    /\ e = RuntimeError (failure_message resp).
Proof.
  intros get self qn prompts maxrows icq sec op.
  destruct (execute_query_response get self qn prompts maxrows icq sec op)
    as [url [Hurl Hex]].
  exists url. split; [exact Hurl|]. intros e. rewrite Hex. split.
  - destruct (get (build_request self url)) as [resp|e']; simpl.
    + destruct (check_response_cases resp) as [[Hin ->]|[_ ->]]; [|discriminate].
      intros [= <-]. right. eauto.
    + intros [= <-]. now left.
  - intros [->|[resp [-> [Hin ->]]]]; simpl; [reflexivity|].
    now apply check_response_4xx_5xx.
Qed.

(** X6.  The failure message starts with the fixed text, holds the
    status code in decimal and the whole body, and determines both: two
    responses with the same failure message have the same status and
    the same body. *)
Theorem failure_message_injective :
  forall r1 r2 : Response,
    (exists rest,
        failure_message r1 = "PeopleSoft ExecuteQuery call failed: " ++ rest)
    /\ PyStr.occurs_in (PyStr.str_of_int (status_code r1)) (failure_message r1)
    /\ PyStr.occurs_in (text r1) (failure_message r1)
    /\ (failure_message r1 = failure_message r2 <-> r1 = r2).
Proof.
  intros r1 r2.
  split; [unfold failure_message; eauto|].
  split; [apply failure_message_contents|].
  split; [apply failure_message_contents|].
  split; [|now intros ->].
  unfold failure_message. intros H. apply str_app_inv_head in H.
  apply (f_equal (PyStr.split1 "010")) in H.
  change (PyStr.nl ++ text r1) with (String "010" (text r1)) in H.
  change (PyStr.nl ++ text r2) with (String "010" (text r2)) in H.
  rewrite !PyStrFacts.split1_first in H by apply str_of_int_no_newline.
  injection H as Hs Ht. apply str_of_int_inj in Hs.
  destruct r1, r2; simpl in *. now subst.
Qed.

(** ** Row extractor *)

Lemma contains_cut (c : ascii) (s : string) :
  PyStr.contains c s = true ->
  exists a b, s = a ++ String c b /\ PyStr.contains c a = false.
Proof.
  induction s as [|x s IH]; simpl; [discriminate|].
  destruct (Ascii.eqb_spec x c) as [->|Hne].
  - intros _. now exists "", s.
  - intros H. destruct (IH H) as [a [b [-> Ha]]].
    exists (String x a), b. split; [reflexivity|]. simpl.
    destruct (Ascii.eqb_spec x c); [contradiction | exact Ha].
Qed.

(** X7.  [strip_ns] on any tag: it never raises; a tag without a closing
    brace comes back unchanged, and any other tag loses everything up
    to and including its first closing brace. *)
Theorem strip_ns_cases :
  forall tag : string,
    (PyStr.contains "}" tag = false /\ strip_ns tag = Ok tag)
    \/ (exists a b,
           tag = a ++ "}" ++ b
           /\ PyStr.contains "}" a = false
           /\ strip_ns tag = Ok b).
Proof.
  intros tag. destruct (PyStr.contains "}" tag) eqn:E.
  - right. destruct (contains_cut _ _ E) as [a [b [-> Ha]]].
    exists a, b. split; [reflexivity|]. split; [exact Ha|].
    unfold strip_ns. rewrite E, (PyStrFacts.split1_first "}" a b Ha).
    reflexivity.
  - left. split; [reflexivity|]. unfold strip_ns. now rewrite E.
Qed.

Lemma build_row_total (cs : list ET.Element) (row : PyDict.t string) :
  PyDict.wf row ->
  exists row', build_row cs row = Ok row' /\ PyDict.wf row'.
Proof.
  revert row. induction cs as [|c cs IH]; intros row Hwf; simpl; [eauto|].
  destruct (strip_ns_total (ET.tag c)) as [name ->]. simpl.
  apply IH. now apply PyDictFacts.wf_setitem.
Qed.

Lemma collect_rows_total (nodes : list ET.Element) (acc : list (PyDict.t string)) :
  exists rs,
    collect_rows nodes acc = Ok (acc ++ rs)%list
    /\ List.length rs <= List.length nodes
    /\ Forall PyDict.wf rs.
Proof.
  revert acc. induction nodes as [|n nodes IH]; intros acc; simpl.
  - exists []. rewrite List.app_nil_r.
    split; [reflexivity | split; [apply le_n | constructor]].
  - destruct (strip_ns_total (ET.tag n)) as [name ->]. simpl.
    destruct (String.eqb name "row").
    + destruct (build_row_total (ET.children n) PyDict.empty) as [row [-> Hrow]];
        [constructor|].
      simpl. destruct (IH (acc ++ [row])%list) as [rs [-> [Hlen Hwf]]].
      exists (row :: rs). rewrite <- List.app_assoc.
      split; [reflexivity | split; [simpl; lia | now constructor]].
    + destruct (IH acc) as [rs [-> [Hlen Hwf]]].
      exists rs. split; [reflexivity | split; [lia | exact Hwf]].
Qed.

(** X8.  The extractor fails only where [ET.fromstring] fails, with the
    same exception.  On every tree the parser returns, whatever its
    tags, it returns a list of at most one mapping per element, each a
    dictionary with distinct keys. *)
Theorem extraction_fails_only_in_parser :
  forall (fromstring : string -> result ET.Element) (xml_text : string),
    (forall e, parse_executequery_xml fromstring xml_text = Raise e
               <-> fromstring xml_text = Raise e)
    /\ (forall root, fromstring xml_text = Ok root ->
          exists rows,
            parse_executequery_xml fromstring xml_text = Ok rows
            /\ List.length rows <= List.length (ET.iter root)
            /\ Forall PyDict.wf rows).
Proof.
  intros fromstring xml_text. unfold parse_executequery_xml.
  destruct (fromstring xml_text) as [root|e0]; simpl.
  - destruct (collect_rows_total (ET.iter root) []) as [rs [E [Hlen Hwf]]].
    simpl in E. split.
    + intros e. rewrite E. split; discriminate.
    + intros root' [= <-]. eauto.
  - split; [intros e; split; intros [= ->]; reflexivity | discriminate].
Qed.

Lemma existsb_eqb_In (k : string) (seen : list string) :
  existsb (String.eqb k) seen = true <-> In k seen.
Proof.
  rewrite existsb_exists. split.
  - intros [x [Hx E]]. apply String.eqb_eq in E. now subst.
  - intros H. exists k. split; [exact H | apply String.eqb_refl].
Qed.

Lemma keys_setitem_present {V : Type} (k : string) (v : V) (d : PyDict.t V) :
  In k (PyDict.keys d) -> PyDict.keys (PyDict.setitem k v d) = PyDict.keys d.
Proof.
  induction d as [|[k0 v0] d IH]; simpl; [tauto|].
  destruct (String.eqb_spec k k0) as [->|Hne]; simpl; [reflexivity|].
  intros [E|H]; [congruence|]. f_equal. now apply IH.
Qed.

Lemma keys_fold_order (cs : list Doc.Elem) (row : PyDict.t string) :
  PyDict.keys (fold_left Doc.put_field cs row)
  = (PyDict.keys row
     ++ first_occurrences (PyDict.keys row) (map Doc.field_name cs))%list.
Proof.
  revert row. induction cs as [|c cs IH]; intros row; simpl.
  - now rewrite List.app_nil_r.
  - rewrite IH. unfold Doc.put_field.
    destruct (existsb (String.eqb (Doc.field_name c)) (PyDict.keys row)) eqn:E.
    + apply existsb_eqb_In in E.
      now rewrite (keys_setitem_present _ _ _ E).
    + assert (Hnin : ~ In (Doc.field_name c) (PyDict.keys row)).
      { intros H. apply existsb_eqb_In in H. congruence. }
      rewrite (PyDictFacts.setitem_fresh _ _ _ Hnin).
      unfold PyDict.keys. rewrite map_app. simpl.
      now rewrite <- List.app_assoc.
Qed.

(** X9.  The keys of a row's mapping stand in the order in which the
    local names of the row's children first occur: a repeated name keeps
    the place of its first child (while its value is the last child's). *)
Theorem row_keys_in_order :
  forall (fromstring : string -> result ET.Element) (xml_text : string)
         (d : Doc.Elem) (i : nat) (r : Doc.Elem),
    fromstring xml_text = Ok (Doc.to_ET d) ->
    Doc.names_ok d = true ->
    nth_error (filter Doc.is_row (Doc.elements d)) i = Some r ->
    exists rows row,
      parse_executequery_xml fromstring xml_text = Ok rows
      /\ nth_error rows i = Some row
      /\ PyDict.keys row
         = first_occurrences []
             (map (fun c => Doc.local (Doc.name c)) (Doc.kids r)).
Proof.
  intros fromstring xml_text d i r Hp Hok Hr.
  exists (Doc.rows d), (Doc.row_mapping r).
  split; [exact (parse_rows fromstring xml_text d Hp Hok)|].
  split; [exact (map_nth_error Doc.row_mapping i _ Hr)|].
  unfold Doc.row_mapping. now rewrite keys_fold_order.
Qed.

Lemma row_keys_in_order_witness :
  exists rows row,
    parse_executequery_xml sample_fromstring untidy_text = Ok rows
    /\ nth_error rows 0 = Some row
    /\ PyDict.keys row = ["A"; "B"; "C"].
Proof.
  exact (row_keys_in_order sample_fromstring untidy_text untidy 0
           (hd untidy (filter Doc.is_row (Doc.elements untidy)))
           eq_refl eq_refl eq_refl).
Defined.

(** *** Subtrees *)

Lemma collect_rows_uniform (nodes : list ET.Element) :
  exists rs, forall acc, collect_rows nodes acc = Ok (acc ++ rs)%list.
Proof.
  induction nodes as [|n nodes [rs0 IH]]; simpl.
  - exists []. intros acc. now rewrite List.app_nil_r.
  - destruct (strip_ns_total (ET.tag n)) as [name ->]. simpl.
    destruct (String.eqb name "row").
    + destruct (build_row_total (ET.children n) PyDict.empty) as [row [-> _]];
        [constructor|].
      exists (row :: rs0). intros acc. simpl.
      now rewrite IH, <- List.app_assoc.
    + exists rs0. exact IH.
Qed.

(** Rows found are appended to the rows found before. *)
Lemma collect_rows_acc (nodes : list ET.Element) (acc : list (PyDict.t string)) :
  collect_rows nodes acc
  = (rs <- collect_rows nodes [] ;; Ok (acc ++ rs)%list).
Proof.
  destruct (collect_rows_uniform nodes) as [rs H].
  now rewrite (H acc), (H []).
Qed.

(** The loop over a list of nodes is the loop over its front followed by
    the loop over its back. *)
Lemma collect_rows_app (a b : list ET.Element) (acc : list (PyDict.t string)) :
  collect_rows (a ++ b) acc
  = (acc' <- collect_rows a acc ;; collect_rows b acc').
Proof.
  revert acc. induction a as [|n a IH]; intros acc; simpl; [reflexivity|].
  destruct (strip_ns (ET.tag n)) as [name|e]; simpl; [|reflexivity].
  destruct (String.eqb name "row"); [|apply IH].
  destruct (build_row (ET.children n) PyDict.empty) as [row|e]; simpl;
    [apply IH | reflexivity].
Qed.

Lemma collect_rows_children (cs : list ET.Element) (acc : list (PyDict.t string)) :
  collect_rows (flat_map ET.iter cs) acc
  = (rss <- mapM (fun c => collect_rows (ET.iter c) []) cs ;;
     Ok (acc ++ concat rss)%list).
Proof.
  revert acc. induction cs as [|c cs IH]; intros acc; simpl.
  - now rewrite List.app_nil_r.
  - rewrite collect_rows_app, collect_rows_acc.
    destruct (collect_rows (ET.iter c) []) as [rs|e]; simpl; [|reflexivity].
    rewrite IH.
    destruct (mapM (fun c0 => collect_rows (ET.iter c0) []) cs) as [rss|e];
      simpl; [|reflexivity].
    now rewrite <- List.app_assoc.
Qed.

(** X10.  Extraction composes over subtrees: the rows of a document are
    the row of its root element, if the root is one, followed by the
    rows of each child of the root extracted as a document of its own,
    child after child. *)
Theorem rows_compose :
  forall (fromstring : string -> result ET.Element) (xml_text : string)
         (tag : string) (text : option string) (children : list ET.Element)
         (child_texts : list string),
    fromstring xml_text = Ok (ET.mkElement tag text children) ->
    Forall2 (fun t c => fromstring t = Ok c) child_texts children ->
    parse_executequery_xml fromstring xml_text
    = (own <- collect_rows [ET.mkElement tag text children] [] ;;
       rss <- mapM (parse_executequery_xml fromstring) child_texts ;;
       Ok (own ++ concat rss)%list).
Proof.
  intros fromstring xml_text tag x cs ts Hroot Hkids.
  assert (Hm : mapM (parse_executequery_xml fromstring) ts
               = mapM (fun c => collect_rows (ET.iter c) []) cs).
  { clear Hroot. induction Hkids as [|t c ts cs Ht _ IH]; simpl; [reflexivity|].
    unfold parse_executequery_xml at 1. rewrite Ht. simpl. now rewrite IH. }
  unfold parse_executequery_xml at 1. rewrite Hroot, Hm.
  transitivity (collect_rows ([ET.mkElement tag x cs] ++ flat_map ET.iter cs) []);
    [reflexivity|].
  rewrite collect_rows_app.
  destruct (collect_rows [ET.mkElement tag x cs] []) as [own|e]; simpl;
    [|reflexivity].
  apply collect_rows_children.
Qed.

Lemma rows_compose_witness :
  parse_executequery_xml subtree_fromstring wrapped_text
  = Ok ([] ++ concat [ [[("A", "1")]]; []; [[("A", "2")]] ])%list.
Proof.
  refine (rows_compose subtree_fromstring wrapped_text "data" None
            (map Doc.to_ET (Doc.kids wrapped)) wrapped_child_texts
            eq_refl _).
  repeat constructor.
Defined.

(** ** The script *)

Lemma getitem_get {V : Type} (d : PyDict.t V) (k : string) :
  PyDict.getitem d k
  = match PyDict.get k d with
    | Some v => Ok v
    | None => Raise (KeyError k)
    end.
Proof. reflexivity. Qed.

Lemma print_rows_complete (rs : list (PyDict.t string)) (out : list string) :
  Forall (fun r => missing_field r = None) rs ->
  print_rows rs out = ((out ++ map vendor_line rs)%list, Ok tt).
Proof.
  intros H. revert out.
  induction H as [|r rs Hr _ IH]; intros out; simpl.
  - now rewrite List.app_nil_r.
  - unfold missing_field in Hr. unfold vendor_line. rewrite !getitem_get.
    destruct (PyDict.get "VENDOR_ID" r) as [a|]; [|discriminate].
    destruct (PyDict.get "VENDOR_NAME_SHORT" r) as [b|]; [|discriminate].
    rewrite IH, <- List.app_assoc. reflexivity.
Qed.

Lemma print_rows_missing (before after : list (PyDict.t string))
    (r : PyDict.t string) (field : string) (out : list string) :
  Forall (fun r0 => missing_field r0 = None) before ->
  missing_field r = Some field ->
  print_rows (before ++ r :: after) out
  = ((out ++ map vendor_line before)%list, Raise (KeyError field)).
Proof.
  intros H Hr. revert out.
  induction H as [|r0 rs Hr0 _ IH]; intros out; simpl.
  - rewrite List.app_nil_r. unfold missing_field in Hr. rewrite !getitem_get.
    destruct (PyDict.get "VENDOR_ID" r) as [a|]; [|now injection Hr as <-].
    destruct (PyDict.get "VENDOR_NAME_SHORT" r) as [b|];
      [discriminate | now injection Hr as <-].
  - unfold missing_field in Hr0. unfold vendor_line at 1. rewrite !getitem_get.
    destruct (PyDict.get "VENDOR_ID" r0) as [a|]; [|discriminate].
    destruct (PyDict.get "VENDOR_NAME_SHORT" r0) as [b|]; [|discriminate].
    rewrite IH, <- List.app_assoc. reflexivity.
Qed.


(** X11.  When the call succeeds, the body parses and each of the first
    five rows (or of all rows, if there are fewer) has both
    [VENDOR_ID] and [VENDOR_NAME_SHORT], the script writes one line per
    such row, the two values separated by a space, and ends normally;
    rows after the fifth are not looked at. *)
Theorem script_prints_leading_rows :
  forall (requests_get : Request -> result Response)
         (fromstring : string -> result ET.Element)
         (xml : string) (rows : list (PyDict.t string)),
    execute_query requests_get script_client "FM_VENDOR_MASTER" script_prompts 50
      "N" "public" "XMLP/NONFILE" = Ok xml ->
    parse_executequery_xml fromstring xml = Ok rows ->
    Forall (fun r => missing_field r = None) (firstn 5 rows) ->
    test_peoplesoft_query requests_get fromstring
    = (map vendor_line (firstn 5 rows), Ok tt).
Proof.
  intros get fs xml rows Hx Hp Hall.
  unfold test_peoplesoft_query, default_isconnectedquery, default_security,
    default_output_path.
  rewrite Hx, Hp. exact (print_rows_complete _ [] Hall).
Qed.

Lemma script_prints_leading_rows_witness :
  test_peoplesoft_query
    (always (mkResponse 200 "<data>...</data>")) (reads_as six_vendors)
  = ( [ "V1 Acme" ++ PyStr.nl; "V2 Brio" ++ PyStr.nl; "V3 Cyan" ++ PyStr.nl;
        "V4 Dell" ++ PyStr.nl; "V5 Eon" ++ PyStr.nl ],
      Ok tt ).
Proof.
  refine (script_prints_leading_rows
            (always (mkResponse 200 "<data>...</data>")) (reads_as six_vendors)
            "<data>...</data>" (Doc.rows six_vendors) eq_refl eq_refl _).
  repeat constructor.
Defined.

(** X12.  When one of the first five rows lacks a field, the script
    stops there with [KeyError] for the first field it misses
    ([VENDOR_ID] before [VENDOR_NAME_SHORT]), having written the lines
    of the rows before it and nothing for the row itself. *)
Theorem script_key_error :
  forall (requests_get : Request -> result Response)
         (fromstring : string -> result ET.Element)
         (xml : string) (before after : list (PyDict.t string))
         (r : PyDict.t string) (field : string),
    execute_query requests_get script_client "FM_VENDOR_MASTER" script_prompts 50
      "N" "public" "XMLP/NONFILE" = Ok xml ->
    parse_executequery_xml fromstring xml = Ok (before ++ r :: after)%list ->
    List.length before < 5 ->
    Forall (fun r0 => missing_field r0 = None) before ->
    missing_field r = Some field ->
    test_peoplesoft_query requests_get fromstring
    = (map vendor_line before, Raise (KeyError field)).
Proof.
  intros get fs xml before after r field Hx Hp Hlen Hall Hr.
  unfold test_peoplesoft_query, default_isconnectedquery, default_security,
    default_output_path.
  rewrite Hx, Hp.
  assert (E : firstn 5 (before ++ r :: after)%list
              = (before ++ r :: firstn (4 - List.length before) after)%list).
  { rewrite firstn_app.
    rewrite (firstn_all2 before) by lia.
    f_equal.
    replace (5 - List.length before) with (S (4 - List.length before)) by lia.
    reflexivity. }
  rewrite E. exact (print_rows_missing _ _ _ _ [] Hall Hr).
Qed.

Lemma script_key_error_witness :
  test_peoplesoft_query
    (always (mkResponse 200 "<data>...</data>")) (reads_as nameless_vendor)
  = (["V1 Acme" ++ PyStr.nl], Raise (KeyError "VENDOR_NAME_SHORT")).
Proof.
  refine (script_key_error
            (always (mkResponse 200 "<data>...</data>")) (reads_as nameless_vendor)
            "<data>...</data>"
            [Doc.row_mapping (vendor_row "V1" "Acme")]
            [Doc.row_mapping (vendor_row "V3" "Cyan")]
            [("VENDOR_ID", "V2")] "VENDOR_NAME_SHORT"
            eq_refl eq_refl _ _ eq_refl).
  - simpl. lia.
  - repeat constructor.
Defined.


(* ================================================================== *)
(** * Field values against the text of the document *)

(** ** Trimming *)

(** The code's whitespace test accepts the whitespace characters and no
    other. *)
Lemma isspace_is_space (c : ascii) : PyStr.isspace c = Mixed.is_space c.
Proof.
  destruct c as [b0 b1 b2 b3 b4 b5 b6 b7].
  destruct b0, b1, b2, b3, b4, b5, b6, b7; reflexivity.
Qed.

Lemma all_by_ext (p q : ascii -> bool) (s : string) :
  (forall a, p a = q a) -> PyStr.all_by p s = PyStr.all_by q s.
Proof.
  intros E. induction s as [|c s IH]; simpl; [reflexivity|].
  now rewrite E, IH.
Qed.

Lemma starts_by_ext (p q : ascii -> bool) (s : string) :
  (forall a, p a = q a) -> PyStr.starts_by p s = PyStr.starts_by q s.
Proof. intros E. destruct s; simpl; [reflexivity | apply E]. Qed.

Lemma lstrip_by_app_all (p : ascii -> bool) (l b : string) :
  PyStr.all_by p l = true ->
  PyStr.starts_by p b = false ->
  PyStr.lstrip_by p (l ++ b) = b.
Proof.
  intros Hl Hb. induction l as [|c l IH]; simpl.
  - destruct b as [|d b]; simpl in *; [reflexivity | now rewrite Hb].
  - simpl in Hl. apply andb_prop in Hl as [Hc Hl]. rewrite Hc. now apply IH.
Qed.

(** What the code's [strip] returns is the trimmed text. *)
Lemma trimmed_strip (s : string) : Mixed.trimmed s (PyStr.strip s).
Proof.
  destruct (PyStrFacts.strip_spec s) as [l [r [E [Hl [Hr [Hs He]]]]]].
  exists l, r. unfold Mixed.blank.
  rewrite <- (all_by_ext _ _ l isspace_is_space),
    <- (all_by_ext _ _ r isspace_is_space),
    <- (starts_by_ext _ _ _ isspace_is_space),
    <- (PyStrFacts.ends_by_ext _ _ _ isspace_is_space).
  now repeat split.
Qed.

(** The trimmed text is unique, so it is what [strip] returns. *)
Lemma strip_trimmed (s v : string) : Mixed.trimmed s v -> PyStr.strip s = v.
Proof.
  intros [l [r [E [Hl [Hr [Hs He]]]]]]. unfold Mixed.blank in *.
  rewrite <- (all_by_ext _ _ l isspace_is_space) in Hl.
  rewrite <- (all_by_ext _ _ r isspace_is_space) in Hr.
  rewrite <- (starts_by_ext _ _ _ isspace_is_space) in Hs.
  rewrite <- (PyStrFacts.ends_by_ext _ _ _ isspace_is_space) in He.
  subst s. unfold PyStr.strip.
  rewrite <- PyStrFacts.app_assoc, (PyStrFacts.rstrip_by_app_all _ _ _ Hr).
  destruct v as [|c v].
  - rewrite PyStrFacts.app_nil_r, (PyStrFacts.rstrip_by_all _ _ Hl).
    reflexivity.
  - rewrite rstrip_by_fixed.
    + now apply lstrip_by_app_all.
    + rewrite ends_by_app; [exact He | discriminate].
Qed.

Lemma trimmed_blank (s : string) : Mixed.blank s = true -> Mixed.trimmed s "".
Proof.
  intros H. exists s, "". simpl. rewrite PyStrFacts.app_nil_r.
  now repeat split.
Qed.

(** ** Elements and their [ElementTree] view *)

Lemma to_Doc_name (c : Mixed.Node) :
  Doc.name (Mixed.to_Doc c) = Mixed.name c.
Proof. now destruct c. Qed.

Lemma to_Doc_text (c : Mixed.Node) :
  PyStr.or_empty (Doc.text (Mixed.to_Doc c)) = Mixed.lead c.
Proof. destruct c as [q l ss]. simpl. now destruct l. Qed.

Lemma to_Doc_kids (r : Mixed.Node) :
  Doc.kids (Mixed.to_Doc r) = map Mixed.to_Doc (Mixed.children r).
Proof.
  destruct r as [q l ss]. unfold Mixed.children. simpl.
  rewrite map_map. apply map_ext. now intros [k t].
Qed.

Lemma to_Doc_field_name (c : Mixed.Node) :
  Doc.field_name (Mixed.to_Doc c) = Doc.local (Mixed.name c).
Proof. unfold Doc.field_name. now rewrite to_Doc_name. Qed.

Lemma to_Doc_field_value (c : Mixed.Node) :
  Doc.field_value (Mixed.to_Doc c) = PyStr.strip (Mixed.lead c).
Proof. unfold Doc.field_value. now rewrite to_Doc_text. Qed.

(** Without sub-elements the leading character data is the whole text
    content. *)
Lemma text_content_leaf (c : Mixed.Node) :
  Mixed.subs c = [] -> Mixed.text_content c = Mixed.lead c.
Proof.
  destruct c as [q l ss]. simpl. intros ->. simpl.
  apply PyStrFacts.app_nil_r.
Qed.

Lemma fold_put_values (cs : list Mixed.Node) (row : PyDict.t string) :
  fold_left Doc.put_field (map Mixed.to_Doc cs) row
  = fold_left
      (fun acc cv => PyDict.setitem (Doc.local (Mixed.name (fst cv))) (snd cv) acc)
      (combine cs (map (fun c => PyStr.strip (Mixed.lead c)) cs)) row.
Proof.
  revert row. induction cs as [|c cs IH]; intros row; simpl; [reflexivity|].
  rewrite IH. unfold Doc.put_field.
  now rewrite to_Doc_field_name, to_Doc_field_value.
Qed.

(** C6, for the text before the first sub-element.  The mapping returned
    for a row element is built from the row's immediate children only,
    one after the other: each child is recorded under its local name
    with the character data that stands before its first sub-element,
    leading and trailing whitespace removed.  The keys are exactly the
    local names of these children, so no child is left without a key;
    under the name of a child that no later sibling repeats the mapping
    holds that child's trimmed text, the empty string when the text is
    absent, empty or all whitespace.  For a child without sub-elements
    this text is the child's whole text content. *)
Theorem C6_row_fields :
  forall (fromstring : string -> result ET.Element) (xml_text : string)
         (d : Doc.Elem) (i : nat) (r : Mixed.Node),
    fromstring xml_text = Ok (Doc.to_ET d) ->
    Doc.names_ok d = true ->
    nth_error (filter Doc.is_row (Doc.elements d)) i = Some (Mixed.to_Doc r) ->
    exists rows row values,
      parse_executequery_xml fromstring xml_text = Ok rows
      /\ nth_error rows i = Some row
      /\ Forall2 (fun c v => Mixed.trimmed (Mixed.lead c) v)
           (Mixed.children r) values
      /\ row = fold_left
                 (fun acc cv =>
                    PyDict.setitem (Doc.local (Mixed.name (fst cv))) (snd cv) acc)
                 (combine (Mixed.children r) values) PyDict.empty
      /\ PyDict.wf row
      /\ (forall k, In k (PyDict.keys row)
                    <-> exists c, In c (Mixed.children r)
                                  /\ Doc.local (Mixed.name c) = k)
      /\ (forall c, In c (Mixed.children r) ->
                    PyDict.get (Doc.local (Mixed.name c)) row <> None)
      /\ (forall before c after v,
             Mixed.children r = (before ++ c :: after)%list ->
             ~ In (Doc.local (Mixed.name c))
                  (map (fun c0 => Doc.local (Mixed.name c0)) after) ->
             Mixed.trimmed (Mixed.lead c) v ->
             PyDict.get (Doc.local (Mixed.name c)) row = Some v)
      /\ (forall before c after,
             Mixed.children r = (before ++ c :: after)%list ->
             ~ In (Doc.local (Mixed.name c))
                  (map (fun c0 => Doc.local (Mixed.name c0)) after) ->
             Mixed.blank (Mixed.lead c) = true ->
             PyDict.get (Doc.local (Mixed.name c)) row = Some "")
      /\ (forall c, In c (Mixed.children r) -> Mixed.subs c = [] ->
                    Mixed.text_content c = Mixed.lead c).
Proof.
  intros fromstring xml_text d i r Hp Hok Hr.
  exists (Doc.rows d), (Doc.row_mapping (Mixed.to_Doc r)),
    (map (fun c => PyStr.strip (Mixed.lead c)) (Mixed.children r)).
  split; [exact (parse_rows fromstring xml_text d Hp Hok)|].
  split; [exact (map_nth_error Doc.row_mapping i _ Hr)|].
  split.
  { induction (Mixed.children r) as [|c cs IH]; simpl; constructor;
      [apply trimmed_strip | exact IH]. }
  split.
  { unfold Doc.row_mapping. rewrite to_Doc_kids. apply fold_put_values. }
  split; [apply wf_fold_put; constructor|].
  assert (Hkeys : forall k, In k (PyDict.keys (Doc.row_mapping (Mixed.to_Doc r)))
                            <-> exists c, In c (Mixed.children r)
                                          /\ Doc.local (Mixed.name c) = k).
  { intros k. unfold Doc.row_mapping. rewrite keys_fold_put, to_Doc_kids. simpl.
    split.
    - intros [[]|[c' [Hin E]]]. apply in_map_iff in Hin as [c [<- Hc]].
      exists c. split; [exact Hc|]. now rewrite <- to_Doc_field_name.
    - intros [c [Hc E]]. right. exists (Mixed.to_Doc c).
      split; [now apply in_map | now rewrite to_Doc_field_name]. }
  split; [exact Hkeys|].
  split.
  { intros c Hc. apply PyDictFacts.get_In_keys, Hkeys. eauto. }
  assert (Hlast : forall before c after v,
             Mixed.children r = (before ++ c :: after)%list ->
             ~ In (Doc.local (Mixed.name c))
                  (map (fun c0 => Doc.local (Mixed.name c0)) after) ->
             Mixed.trimmed (Mixed.lead c) v ->
             PyDict.get (Doc.local (Mixed.name c))
               (Doc.row_mapping (Mixed.to_Doc r)) = Some v).
  { intros before c after v E Hnin Hv.
    unfold Doc.row_mapping. rewrite to_Doc_kids, E, map_app. simpl.
    rewrite <- to_Doc_field_name, get_fold_put_last.
    - now rewrite to_Doc_field_value, (strip_trimmed _ _ Hv).
    - rewrite map_map, to_Doc_field_name.
      intros Hin. apply Hnin.
      apply in_map_iff in Hin as [c0 [E0 Hc0]].
      apply in_map_iff. exists c0. split; [|exact Hc0].
      now rewrite <- to_Doc_field_name. }
  split; [exact Hlast|].
  split.
  { intros before c after E Hnin Hb.
    exact (Hlast before c after "" E Hnin (trimmed_blank _ Hb)). }
  intros c _. apply text_content_leaf.
Qed.

Lemma C6_row_fields_witness :
  exists rows row,
    parse_executequery_xml mixed_fromstring mixed_text = Ok rows
    /\ nth_error rows 0 = Some row
    /\ PyDict.keys row = ["N"; "B"; "W"; "C"; "E"]
    /\ PyDict.get "N" row = Some "1"
    /\ PyDict.get "B" row = Some ""
    /\ PyDict.get "W" row = Some ""
    /\ PyDict.get "C" row = Some "x"
    /\ PyDict.get "E" row = Some "".
Proof.
  destruct (C6_row_fields mixed_fromstring mixed_text mixed_doc 0 mixed_row
              eq_refl eq_refl eq_refl)
    as [rows [row [values [H1 [H2 [_ [_ [_ [_ [_ [Hlast [Hblank _]]]]]]]]]]]].
  exists rows, row. split; [exact H1|]. split; [exact H2|].
  split.
  { pose proof H1 as E. cbv in E. injection E as <-.
    cbv in H2. injection H2 as <-. reflexivity. }
  split.
  { apply (Hlast [] (Mixed.mkNode (Doc.mkQName None "N")
                       ("  1 " ++ PyStr.nl ++ " ") [])
             (map fst (tl (Mixed.subs mixed_row))) "1"
             eq_refl).
    - simpl. intros [H|[H|[H|[H|[]]]]]; discriminate H.
    - exists "  ", (" " ++ PyStr.nl ++ " "). now repeat split. }
  split.
  { apply (Hblank [fst (hd (mixed_C, "") (Mixed.subs mixed_row))]
             (Mixed.mkNode (Doc.mkQName None "B") "" [])
             (map fst (tl (tl (Mixed.subs mixed_row))))
             eq_refl); [|reflexivity].
    simpl. intros [H|[H|[H|[]]]]; discriminate H. }
  split.
  { apply (Hblank (firstn 2 (Mixed.children mixed_row))
             (Mixed.mkNode (Doc.mkQName None "W") ("  " ++ PyStr.nl ++ "  ") [])
             [mixed_C; mixed_E] eq_refl); [|reflexivity].
    simpl. intros [H|[H|[]]]; discriminate H. }
  split.
  { apply (Hlast (firstn 3 (Mixed.children mixed_row)) mixed_C [mixed_E] "x"
             eq_refl).
    - simpl. intros [H|[]]; discriminate H.
    - exists "", "". now repeat split. }
  apply (Hblank (firstn 4 (Mixed.children mixed_row)) mixed_E [] eq_refl);
    [|reflexivity].
  simpl. tauto.
Defined.

(** C6 does not extend to fields with sub-elements: for
    [<C>x<b>y</b>z</C>] the text content is [xyz], already trimmed, and
    the row holds [x]; for [<E><c>..</c> tail </E>] the text content is
    [.. tail ], trimmed [.. tail], and the row holds the empty string. *)
Lemma C6_counterexample :
  parse_executequery_xml mixed_fromstring mixed_text
  = Ok [ [("N", "1"); ("B", ""); ("W", ""); ("C", "x"); ("E", "")] ]
  /\ In mixed_C (Mixed.children mixed_row)
  /\ Mixed.text_content mixed_C = "xyz"
  /\ Mixed.trimmed (Mixed.text_content mixed_C) "xyz"
  /\ "x" <> "xyz"
  /\ In mixed_E (Mixed.children mixed_row)
  /\ Mixed.text_content mixed_E = ".. tail "
  /\ Mixed.trimmed (Mixed.text_content mixed_E) ".. tail"
  /\ "" <> ".. tail".
Proof.
  split; [reflexivity|].
  split; [simpl; tauto|].
  split; [reflexivity|].
  split; [exists "", ""; now repeat split|].
  split; [discriminate|].
  split; [simpl; tauto|].
  split; [reflexivity|].
  split; [exists "", " "; now repeat split|].
  discriminate.
Qed.
